(** * Comgate payment gateway client: a shallow embedding and its properties

    The repository holds two variants of the client class
    [ComgatePaymentModule]: the current one (src/unnamed/part_000, embedded
    in [Module Part000]) and an older one (src/index.js, embedded in
    [Module Index]).  Both sit on the same JavaScript runtime, which the
    first part of this file models: values and truthiness, string
    conversion, error objects, promises, parsed JSON, URL-encoded bodies and
    the response object handed over by the HTTP transport. *)

From Stdlib Require Import Ascii.
From stdpp Require Import gmap strings list fin_maps pretty.

Set Warnings "-register-all".

Local Open Scope Z_scope.
Local Open Scope string_scope.

(** ** Values *)

Definition loc := positive.

(** Primitive values, references to plain objects held in the heap, and
    function values (kept with their source text, which is what their
    string conversion returns).  [VNum n] stands for the number [n] where
    [n] is an integer that a double holds exactly and that is below 10^21
    in absolute value: these print in plain decimal.  Other integers, the
    fractions, NaN and the infinities are outside the model. *)
Inductive value :=
| VUndefined
| VNull
| VBool (b : bool)
| VNum (n : Z)
| VStr (s : string)
| VRef (l : loc)
| VFun (src : string).

Global Instance value_eq_dec : EqDecision value.
Proof. solve_decision. Defined.

Abbreviation obj := (gmap string value).
Abbreviation heap := (gmap loc (gmap string value)).

(** [ToBoolean]: undefined, null, false, 0 and the empty string are falsy. *)
Definition truthy (v : value) : bool :=
  match v with
  | VUndefined | VNull => false
  | VBool b => b
  | VNum n => negb (Z.eqb n 0)
  | VStr s => negb (String.eqb s "")
  | VRef _ | VFun _ => true
  end.

(** [a || b] *)
Definition or_js (a b : value) : value := if truthy a then a else b.

(** [typeof v === "function"] *)
Definition is_function (v : value) : bool :=
  match v with VFun _ => true | _ => false end.

(** The abstract operation [ToString], as applied by template literals and
    by the [Error] constructor.  Plain objects print as [[object Object]];
    a number prints in plain decimal, which is what the code does on the
    numbers [VNum] stands for (from 10^21 on it would print an exponent). *)
Definition ToString (v : value) : string :=
  match v with
  | VUndefined => "undefined"
  | VNull => "null"
  | VBool true => "true"
  | VBool false => "false"
  | VNum n => pretty n
  | VStr s => s
  | VRef _ => "[object Object]"
  | VFun src => src
  end.

(** Reading a property [o.k] of an object literal's contents. *)
Definition obj_get (o : obj) (k : string) : value := default VUndefined (o !! k).

(** [process.env.K]: the environment holds strings only. *)
Definition env_get (env : gmap string string) (k : string) : value :=
  from_option VStr VUndefined (env !! k).

(** ** Error objects, synchronous completions and promises *)

Inductive error_class := ErrorC | TypeErrorC | FetchErrorC | APIErrorC | PaymentErrorC.

Global Instance error_class_eq_dec : EqDecision error_class.
Proof. solve_decision. Defined.

(** An error object: the class it was built by (what [instanceof] sees) and
    its own properties. *)
Record js_error := { err_class : error_class; err_own : obj }.

(** What the prototype chain answers when the object has no own property:
    [Error.prototype] has [name] and [message], [TypeError.prototype] and
    node-fetch's [FetchError.prototype] override [name]. *)
Definition err_proto (c : error_class) (k : string) : value :=
  if String.eqb k "message" then VStr ""
  else if String.eqb k "name" then
    match c with
    | TypeErrorC => VStr "TypeError"
    | FetchErrorC => VStr "FetchError"
    | ErrorC | APIErrorC | PaymentErrorC => VStr "Error"
    end
  else VUndefined.

(** [e.k] *)
Definition err_get (e : js_error) (k : string) : value :=
  match err_own e !! k with
  | Some v => v
  | None => err_proto (err_class e) k
  end.

(** [new Error(message)] as run by [super(message)]: the [message] own
    property is created, holding [ToString message], unless the argument is
    undefined. *)
Definition Error_init (message : value) : obj :=
  match message with
  | VUndefined => ∅
  | _ => {[ "message" := VStr (ToString message) ]}
  end.

Definition TypeError_new (message : string) : js_error :=
  {| err_class := TypeErrorC; err_own := Error_init (VStr message) |}.

(** node-fetch's [FetchError(message, type)] *)
Definition FetchError_new (message type : string) : js_error :=
  {| err_class := FetchErrorC;
     err_own := <[ "type" := VStr type ]> (Error_init (VStr message)) |}.

(** [Error.prototype.toString] *)
Definition Error_toString (e : js_error) : string :=
  let name := ToString (err_get e "name") in
  let msg := ToString (err_get e "message") in
  if String.eqb name "" then msg
  else if String.eqb msg "" then name
  else name +:+ ": " +:+ msg.

(** The outcome of evaluating an expression or a function body: a value, or
    an exception thrown synchronously. *)
Inductive completion (A : Type) :=
| Normal (a : A)
| Throw (e : js_error).
Arguments Normal {A} a.
Arguments Throw {A} e.

Global Instance completion_ret : MRet completion := @Normal.
Global Instance completion_bind : MBind completion := λ A B f c,
  match c with
  | Normal a => f a
  | Throw e => Throw e
  end.

Global Instance completion_fmap : FMap completion := λ A B f c,
  match c with
  | Normal a => Normal (f a)
  | Throw e => Throw e
  end.

(** [try { body } catch (error) { handler }] *)
Definition try_catch {A} (body : completion A) (handler : js_error → completion A)
  : completion A :=
  match body with
  | Normal a => Normal a
  | Throw e => handler e
  end.

(** [v.toString()]: a method call, so it throws on undefined and null. *)
Definition toString (v : value) : completion string :=
  match v with
  | VUndefined => Throw (TypeError_new "Cannot read properties of undefined (reading 'toString')")
  | VNull => Throw (TypeError_new "Cannot read properties of null (reading 'toString')")
  | _ => Normal (ToString v)
  end.

(** A promise, by the state it settles in. *)
Inductive promise (A : Type) :=
| Resolved (a : A)
| Rejected (e : js_error).
Arguments Resolved {A} a.
Arguments Rejected {A} e.

(** [p.then(f)]: [f] runs on fulfilment only; the promise it returns is
    adopted, an exception it throws becomes the rejection; a rejection of
    [p] passes through untouched. *)
Definition promise_then {A B} (p : promise A) (f : A → completion (promise B))
  : promise B :=
  match p with
  | Resolved a =>
      match f a with
      | Normal q => q
      | Throw e => Rejected e
      end
  | Rejected e => Rejected e
  end.

Definition is_rejected_with {A} (p : promise A) (c : error_class) : Prop :=
  match p with
  | Rejected e => err_class e = c
  | Resolved _ => False
  end.

(** ** Strings *)

(** [s.includes(sub)] *)
Fixpoint includes (s sub : string) : bool :=
  String.prefix sub s ||
  match s with
  | EmptyString => false
  | String _ tl => includes tl sub
  end.

Definition join (sep : string) (parts : list string) : string :=
  match parts with
  | [] => ""
  | p :: ps => foldl (λ acc q, acc +:+ sep +:+ q) p ps
  end.

(** ** Parsed JSON

    What [res.json()] resolves with.  A JSON object keeps its members in
    source order; a repeated key is answered by its last occurrence, as
    [JSON.parse] does, and [own_properties] gives the properties of the
    parsed object.  Numbers are the integer-valued ones, as in [value]. *)
Inductive json :=
| JNull
| JBool (b : bool)
| JNum (n : Z)
| JStr (s : string)
| JArr (items : list json)
| JObj (members : list (string * json)).

Definition dquote : ascii := "034"%char.
Definition backslash : ascii := "092"%char.

Definition hex_digit_of (n : N) : ascii :=
  ascii_of_N (if N.ltb n 10 then 48 + n else 87 + n)%N.

(** How [JSON.stringify] writes one character of a string. *)
Definition json_escape (c : ascii) : string :=
  let n := N_of_ascii c in
  if Ascii.eqb c dquote then String backslash (String dquote "")
  else if Ascii.eqb c backslash then String backslash (String backslash "")
  else if N.eqb n 8 then String backslash "b"
  else if N.eqb n 9 then String backslash "t"
  else if N.eqb n 10 then String backslash "n"
  else if N.eqb n 12 then String backslash "f"
  else if N.eqb n 13 then String backslash "r"
  else if N.ltb n 32 then
    String backslash
      ("u00" +:+ String (hex_digit_of (n / 16)%N) (String (hex_digit_of (n mod 16)%N) ""))
  else String c "".

Fixpoint json_escape_all (s : string) : string :=
  match s with
  | EmptyString => ""
  | String c tl => json_escape c +:+ json_escape_all tl
  end.

Definition json_quote (s : string) : string :=
  String dquote (json_escape_all s +:+ String dquote "").

(** The value a repeated key ends with: that of its last occurrence. *)
Fixpoint assoc_last {A} (members : list (string * A)) (k : string) : option A :=
  match members with
  | [] => None
  | (k', v) :: rest =>
      match assoc_last rest k with
      | Some w => Some w
      | None => if String.eqb k' k then Some v else None
      end
  end.

(** The distinct keys, each where it first occurs. *)
Fixpoint first_keys (seen keys : list string) : list string :=
  match keys with
  | [] => []
  | k :: rest =>
      if bool_decide (k ∈ seen) then first_keys seen rest
      else k :: first_keys (k :: seen) rest
  end.

Fixpoint digits_value (acc : N) (s : string) : option N :=
  match s with
  | EmptyString => Some acc
  | String c tl =>
      let n := N_of_ascii c in
      if N.leb 48 n && N.leb n 57 then digits_value (10 * acc + (n - 48))%N tl else None
  end.

(** The number a key stands for when it is an array index: a canonical
    decimal (no leading zero) below 2^32 - 1. *)
Definition array_index (k : string) : option N :=
  match k with
  | EmptyString => None
  | String c tl =>
      if Ascii.eqb c "0"%char && negb (String.eqb tl "") then None
      else match digits_value 0 k with
           | Some n => if N.ltb n 4294967295 then Some n else None
           | None => None
           end
  end.

Fixpoint insert_index (x : N * string) (sorted : list (N * string)) : list (N * string) :=
  match sorted with
  | [] => [x]
  | y :: rest => if N.leb x.1 y.1 then x :: sorted else y :: insert_index x rest
  end.

(** The order in which an object lists its own keys: the array indices in
    ascending order, then the other keys in the order they were created. *)
Definition own_keys (keys : list string) : list string :=
  let distinct := first_keys [] keys in
  (foldr insert_index [] (omap (λ k, (λ n, (n, k)) <$> array_index k) distinct)).*2
  ++ filter (λ k, array_index k = None) distinct.

(** The own properties of the object that [JSON.parse] builds from the
    members of an object in the source text. *)
Definition own_properties {A} (members : list (string * A)) : list (string * A) :=
  omap (λ k, (λ v, (k, v)) <$> assoc_last members k) (own_keys members.*1).

(** [JSON.stringify(j)] *)
Fixpoint JSON_stringify (j : json) : string :=
  match j with
  | JNull => "null"
  | JBool true => "true"
  | JBool false => "false"
  | JNum n => pretty n
  | JStr s => json_quote s
  | JArr items => "[" +:+ join "," (map JSON_stringify items) +:+ "]"
  | JObj members =>
      "{" +:+ join ","
                (map (λ kv : string * string, json_quote kv.1 +:+ ":" +:+ kv.2)
                     (own_properties (map (λ kv, (kv.1, JSON_stringify kv.2)) members)))
          +:+ "}"
  end.

Definition json_truthy (j : json) : bool :=
  match j with
  | JNull => false
  | JBool b => b
  | JNum n => negb (Z.eqb n 0)
  | JStr s => negb (String.eqb s "")
  | JArr _ | JObj _ => true
  end.

Fixpoint members_get (members : list (string * json)) (k : string) : option json :=
  match members with
  | [] => None
  | (k', v) :: rest =>
      match members_get rest k with
      | Some w => Some w
      | None => if String.eqb k' k then Some v else None
      end
  end.

(** [j.k] for a property name [k] that no built-in prototype defines: [None]
    is undefined; reading a property of null throws. *)
Definition json_get (j : json) (k : string) : completion (option json) :=
  match j with
  | JNull => Throw (TypeError_new ("Cannot read properties of null (reading '" +:+ k +:+ "')"))
  | JObj members => Normal (members_get members k)
  | _ => Normal None
  end.

(** ** URL-encoded bodies: [new URLSearchParams(text)]

    Strings are byte strings, the UTF-8 of the text.  After the percent
    escapes are resolved the bytes are decoded as UTF-8, each ill-formed
    sequence giving U+FFFD. *)

Fixpoint split_on (sep : ascii) (s : string) : list string :=
  match s with
  | EmptyString => [""]
  | String c tl =>
      if Ascii.eqb c sep then "" :: split_on sep tl
      else match split_on sep tl with
           | [] => [String c ""]
           | w :: ws => String c w :: ws
           end
  end.

(** Name and value of one [name=value] sequence, cut at its first [=]. *)
Fixpoint cut_at_equals (s : string) : string * string :=
  match s with
  | EmptyString => ("", "")
  | String c tl =>
      if Ascii.eqb c "="%char then ("", tl)
      else let '(n, v) := cut_at_equals tl in (String c n, v)
  end.

Definition hex_value (c : ascii) : option N :=
  let n := N_of_ascii c in
  if N.leb 48 n && N.leb n 57 then Some (n - 48)%N
  else if N.leb 65 n && N.leb n 70 then Some (n - 55)%N
  else if N.leb 97 n && N.leb n 102 then Some (n - 87)%N
  else None.

Fixpoint percent_decode (s : string) : string :=
  match s with
  | EmptyString => ""
  | String c tl =>
      match tl with
      | String h (String l rest) =>
          match Ascii.eqb c "%"%char, hex_value h, hex_value l with
          | true, Some a, Some b => String (ascii_of_N (16 * a + b)%N) (percent_decode rest)
          | _, _, _ => String c (percent_decode tl)
          end
      | _ => String c (percent_decode tl)
      end
  end.

Fixpoint plus_to_space (s : string) : string :=
  match s with
  | EmptyString => ""
  | String c tl => String (if Ascii.eqb c "+"%char then " "%char else c) (plus_to_space tl)
  end.

(** U+FFFD in UTF-8 *)
Definition replacement : string :=
  String "239"%char (String "191"%char (String "189"%char "")).

(** The state of the UTF-8 decoder: continuation bytes still needed, the
    bounds of the next one, and the bytes of the sequence so far. *)
Record utf8_state := {
  utf8_needed : nat;
  utf8_lower : N;
  utf8_upper : N;
  utf8_seen : string;
}.

Definition utf8_start : utf8_state :=
  {| utf8_needed := 0; utf8_lower := 128; utf8_upper := 191; utf8_seen := "" |}.

(** A byte met when no sequence is open: what is put out, and the state. *)
Definition utf8_lead (b : ascii) : string * utf8_state :=
  let n := N_of_ascii b in
  if N.leb n 127 then (String b "", utf8_start)
  else if N.leb 194 n && N.leb n 223 then
    ("", {| utf8_needed := 1; utf8_lower := 128; utf8_upper := 191;
            utf8_seen := String b "" |})
  else if N.leb 224 n && N.leb n 239 then
    ("", {| utf8_needed := 2;
            utf8_lower := if N.eqb n 224 then 160 else 128;
            utf8_upper := if N.eqb n 237 then 159 else 191;
            utf8_seen := String b "" |})
  else if N.leb 240 n && N.leb n 244 then
    ("", {| utf8_needed := 3;
            utf8_lower := if N.eqb n 240 then 144 else 128;
            utf8_upper := if N.eqb n 244 then 143 else 191;
            utf8_seen := String b "" |})
  else (replacement, utf8_start).

Fixpoint utf8_run (st : utf8_state) (s : string) : string :=
  match s with
  | EmptyString => match utf8_needed st with O => "" | S _ => replacement end
  | String b tl =>
      match utf8_needed st with
      | O => let '(out, st') := utf8_lead b in out +:+ utf8_run st' tl
      | S m =>
          let n := N_of_ascii b in
          if N.leb (utf8_lower st) n && N.leb n (utf8_upper st) then
            match m with
            | O => utf8_seen st +:+ String b (utf8_run utf8_start tl)
            | S _ =>
                utf8_run {| utf8_needed := m; utf8_lower := 128; utf8_upper := 191;
                            utf8_seen := utf8_seen st +:+ String b "" |} tl
            end
          else
            let '(out, st') := utf8_lead b in
            replacement +:+ out +:+ utf8_run st' tl
      end
  end.

(** UTF-8 decode (without BOM handling) of a byte string, as UTF-8 again. *)
Definition utf8_decode (s : string) : string := utf8_run utf8_start s.

Definition form_decode (s : string) : string :=
  utf8_decode (percent_decode (plus_to_space s)).

(** The list of name-value pairs of [new URLSearchParams(text)]: one leading
    [?] is dropped, empty sequences between [&] are skipped. *)
Definition URLSearchParams (text : string) : list (string * string) :=
  let text :=
    match text with
    | String c tl => if Ascii.eqb c "?"%char then tl else text
    | EmptyString => text
    end in
  omap (λ seq,
          if String.eqb seq "" then None
          else let '(n, v) := cut_at_equals seq in Some (form_decode n, form_decode v))
       (split_on "&"%char text).

(** [out[key] = value] on a plain object [out] and a string [value]: the
    name [__proto__] reaches the prototype setter, which ignores a string. *)
Definition obj_assign (out : gmap string string) (key value : string)
  : gmap string string :=
  if String.eqb key "__proto__" then out else <[ key := value ]> out.

(** [urlParams.forEach((value, key) => { out[key] = value; })] from [{}] *)
Definition collect_params (urlParams : list (string * string)) : gmap string string :=
  foldl (λ out kv, obj_assign out kv.1 kv.2) ∅ urlParams.

(** [out.k] as a value *)
Definition str_get (out : gmap string string) (k : string) : value :=
  from_option VStr VUndefined (out !! k).

(** ** The HTTP transport: node-fetch's [fetch], its request and response *)

(** What [fetch(url, params)] is called with.  A body is a [FormData]: its
    fields in the order they were appended; the multipart headers of
    [formData.getHeaders()] go with it. *)
Record request := {
  req_url : string;
  req_method : string;
  req_body : option (list (string * value));
  req_accept : option string;
}.

(** The response object.  [res.text()] and [res.json()] belong to the
    transport: each is given by what a call to it yields, an exception or a
    promise. *)
Record response := {
  res_status : Z;
  res_content_type : option string;
  res_text : completion (promise string);
  res_json : completion (promise json);
}.

(** [res.ok] *)
Definition res_ok (res : response) : bool :=
  Z.leb 200 (res_status res) && Z.ltb (res_status res) 300.

(** node-fetch's response to a body that arrived whole: [text()] resolves
    with it; [json()] resolves with [parsed], what [JSON.parse] makes of the
    body, or rejects with a [FetchError] of type [invalid-json] when the
    text is not JSON ([parsed = None]; the message is abridged, the full one
    also names the URL and the parser's reason).  Neither call throws. *)
Definition fetched (status : Z) (content_type : option string) (body : string)
    (parsed : option json) : response :=
  {| res_status := status;
     res_content_type := content_type;
     res_text := Normal (Resolved body);
     res_json :=
       Normal (match parsed with
               | Some j => Resolved j
               | None => Rejected (FetchError_new "invalid json response body" "invalid-json")
               end) |}.

(** What a call resolves with: the parsed JSON as it is, the stripped field
    mapping of a URL-encoded body, or the raw text. *)
Inductive result :=
| RJson (j : json)
| RFields (out : gmap string string)
| RText (payload : string).

(** One call through the client: the request handed to [fetch] and the
    promise returned to the caller. *)
Record call := { sent : request; returned : promise result }.

(** An object literal [{ k1: v1, ... }] whose keys are all distinct. *)
Definition obj_lit (props : list (string * value)) : obj := list_to_map props.

(** [{ ...base, ...params }]: the entries of [params] win. *)
Definition spread2 (base params : obj) : obj := params ∪ base.

(** [this.logger] *)
Inductive logger := LogWith (f : value) | LogConsole | LogNoop.

(** * The current client: src/unnamed/part_000 *)
Module Part000.

(** [class APIError extends Error]: the constructor passes [message] on
    and sets [name]; it does nothing with its second parameter. *)
Definition APIError_new (message status : value) : js_error :=
  {| err_class := APIErrorC;
     err_own := <[ "name" := VStr "APIError" ]> (Error_init message) |}.

(** [class PaymentError extends Error], the same shape. *)
Definition PaymentError_new (message status : value) : js_error :=
  {| err_class := PaymentErrorC;
     err_own := <[ "name" := VStr "PaymentError" ]> (Error_init message) |}.

(** [this.config] *)
Record configuration := {
  secret : value;
  bankPublicKey : value;
  calbackUrl : value;
  useTest : value;
  merchantId : value;
  apiVersion : value;
  currency : value;
  language : value;
  country : value;
  gateUrl : string;
}.

Record client := { client_logger : logger; config : configuration }.

(** [constructor(config = {})], with [process.env] made explicit. *)
Definition constructor (config : obj) (env : gmap string string) : client :=
  let logging := obj_get config "logging" in
  let log :=
    if truthy logging
    then (if is_function logging then LogWith logging else LogConsole)
    else LogNoop in
  let version :=
    or_js (or_js (obj_get config "apiVersion") (env_get env "API_VERSION")) (VStr "1.0") in
  {| client_logger := log;
     config :=
       {| secret := or_js (obj_get config "secret") (env_get env "MERCHANT_SECRET");
          bankPublicKey :=
            or_js (obj_get config "bankPublicKey") (env_get env "BANK_PUBLIC_KEY");
          calbackUrl := or_js (obj_get config "calbackUrl") (env_get env "CALLBACK_URL");
          useTest :=
            or_js (or_js (obj_get config "useTest") (env_get env "USE_TEST")) (VBool false);
          merchantId := or_js (obj_get config "merchantId") (env_get env "MERCHANT_ID");
          apiVersion := version;
          currency := or_js (obj_get config "currency") (VStr "CZK");
          language := or_js (obj_get config "language") (VStr "cs");
          country := or_js (obj_get config "country") (VStr "CZ");
          gateUrl :=
            ToString (or_js (or_js (obj_get config "gateUrl") (env_get env "GATEWAY_URL"))
                            (VStr "https://payments.comgate.cz"))
            +:+ "/v" +:+ ToString version |} |}.

(** The argument defaults to [{}] when it is left out. *)
Definition new_client (config : option obj) (env : gmap string string) : client :=
  constructor (default ∅ config) env.

(** [(data[key] || "").toString()]; the call never throws, see
    [form_value_toString]. *)
Definition form_value (v : value) : string := ToString (or_js v (VStr "")).

(** The [FormData] built from [data]: [type] first, then one field per key
    of [Object.keys(data)].  The code appends these in the key order of the
    object (array indices first, then the order of insertion); a map does
    not record that order, and the fields after the first stand here in the
    order of [map_to_list].  What is stated about a body below is its head,
    its length and which fields it holds, never the order among them. *)
Definition form_data (data : obj) : list (string * value) :=
  ("type", VStr "json") :: ((λ kv, (kv.1, VStr (form_value kv.2))) <$> map_to_list data).

(** [res.json().then((json) => { ... })]'s callback *)
Definition on_json (status : Z) (j : json) : completion (promise result) :=
  error ← json_get j "error";
  match error with
  | Some err =>
      if json_truthy err
      then Normal (Rejected (APIError_new (VStr (JSON_stringify err)) (VNum status)))
      else Normal (Resolved (RJson j))
  | None => Normal (Resolved (RJson j))
  end.

(** [res.text().then((payload) => { ... })]'s callback on the success path *)
Definition on_text (contentType : string) (payload : string) : completion (promise result) :=
  if includes contentType "form-urlencoded" || includes contentType "text/html" then
    let urlParams := URLSearchParams payload in
    let out := collect_params urlParams in
    if negb (bool_decide (str_get out "code" = VStr "0"))
    then Normal (Rejected (PaymentError_new (str_get out "message") (str_get out "code")))
    else Normal (Resolved (RFields (delete "message" (delete "code" out))))
  else Normal (Resolved (RText payload)).

(** [fetch(...).then((res) => { ... })]'s callback.  [contentType.includes]
    runs first and throws when the header is missing ([get] returned
    null).  In the [catch] clause the caught error becomes the message of
    the new [APIError], that is [ToString] of it. *)
Definition on_response (res : response) : completion (promise result) :=
  match res_content_type res with
  | None => Throw (TypeError_new "Cannot read properties of null (reading 'includes')")
  | Some contentType =>
      let isJSON := includes contentType "application/json" in
      if negb (res_ok res) then
        p ← res_text res;
        Normal (promise_then p (λ errorBody,
          Normal (Rejected (APIError_new (VStr errorBody) (VNum (res_status res))))))
      else
        try_catch
          (if isJSON then
             p ← res_json res;
             Normal (promise_then p (on_json (res_status res)))
           else
             p ← res_text res;
             Normal (promise_then p (on_text contentType)))
          (λ error,
             Normal (Rejected (APIError_new (VStr (Error_toString error))
                                            (VNum (res_status res)))))
  end.

(** [_makeAPICall(path, data, method = "POST")] *)
Definition _makeAPICall (this : client) (fetch : request → promise response)
    (path : string) (data : option obj) (method : option string) : call :=
  let params :=
    match data with
    | Some d =>
        {| req_url := gateUrl (config this) +:+ "/" +:+ path;
           req_method := default "POST" method;
           req_body := Some (form_data d);
           req_accept := Some "application/json" |}
    | None =>
        {| req_url := gateUrl (config this) +:+ "/" +:+ path;
           req_method := default "POST" method;
           req_body := None;
           req_accept := None |}
    end in
  {| sent := params; returned := promise_then (fetch params) on_response |}.

Definition methods (this : client) (fetch : request → promise response) : call :=
  let c := config this in
  _makeAPICall this fetch "methods"
    (Some (obj_lit [("merchant", merchantId c); ("secret", secret c);
                    ("lang", language c); ("curr", currency c);
                    ("country", country c)]))
    None.

Definition create (this : client) (fetch : request → promise response)
    (params : option obj) : call :=
  let c := config this in
  let paymentParams :=
    spread2 (obj_lit [("merchant", merchantId c); ("test", useTest c);
                      ("country", country c); ("curr", currency c);
                      ("secret", secret c); ("lang", language c);
                      ("method", VStr "ALL")])
            (default ∅ params) in
  _makeAPICall this fetch "create" (Some paymentParams) None.

Definition cancel (this : client) (fetch : request → promise response)
    (transactionId : value) : call :=
  let c := config this in
  _makeAPICall this fetch "cancel"
    (Some (obj_lit [("merchant", merchantId c); ("transId", transactionId);
                    ("secret", secret c)]))
    None.

(** [refund(transactionId, params)]: [params] is the caller's object, a
    reference into the heap.  Reading [amount] off a missing object
    throws; [delete params.amount] writes to the heap before anything
    else is evaluated. *)
Definition refund (this : client) (fetch : request → promise response)
    (transactionId : value) (params : loc) (h : heap) : heap * completion call :=
  let c := config this in
  match h !! params with
  | None =>
      (h, Throw (TypeError_new "Cannot destructure property 'amount' of 'params'"))
  | Some o =>
      let amount := obj_get o "amount" in
      let h' := <[ params := delete "amount" o ]> h in
      (h',
       test ← toString (useTest c);
       amount_s ← toString (or_js amount (VStr ""));
       Normal (_makeAPICall this fetch "refund"
         (Some (spread2 (obj_lit [("merchant", merchantId c); ("transId", transactionId);
                                  ("secret", secret c); ("test", VStr test);
                                  ("curr", currency c); ("amount", VStr amount_s)])
                        (default ∅ (h' !! params))))
         None))
  end.

Definition status (this : client) (fetch : request → promise response)
    (transactionId : value) : call :=
  let c := config this in
  _makeAPICall this fetch "status"
    (Some (obj_lit [("merchant", merchantId c); ("transId", transactionId);
                    ("secret", secret c)]))
    None.

End Part000.

(** * The older client: src/index.js *)
Module Index.

(** [class APIError extends Error], as in the current client. *)
Definition APIError_new (message status : value) : js_error :=
  {| err_class := APIErrorC;
     err_own := <[ "name" := VStr "APIError" ]> (Error_init message) |}.

Record configuration := {
  secret : value;
  bankPublicKey : value;
  calbackUrl : value;
  useTest : value;
  merchantId : value;
  apiVersion : value;
  currency : value;
  language : value;
  country : value;
  gateUrl : string;
  payloadTemplate : obj;
}.

Record client := { client_logger : logger; config : configuration }.

(** [v.k] for a name [k] that no built-in prototype defines: it throws on
    undefined and null, reads the heap for an object, and is undefined on
    the other primitives and on functions. *)
Definition get_prop (h : heap) (v : value) (k : string) : completion value :=
  match v with
  | VUndefined =>
      Throw (TypeError_new ("Cannot read properties of undefined (reading '" +:+ k +:+ "')"))
  | VNull =>
      Throw (TypeError_new ("Cannot read properties of null (reading '" +:+ k +:+ "')"))
  | VRef l => Normal (obj_get (default ∅ (h !! l)) k)
  | _ => Normal VUndefined
  end.

(** [constructor(config = {})]: [currency], [language] and [country] are
    read off [config.apiVersion], the option as passed in. *)
Definition constructor (h : heap) (config : obj) (env : gmap string string)
  : completion client :=
  let logging := obj_get config "logging" in
  let log :=
    if truthy logging
    then (if is_function logging then LogWith logging else LogConsole)
    else LogNoop in
  let secret_ := or_js (obj_get config "secret") (env_get env "MERCHANT_SECRET") in
  let bankPublicKey_ :=
    or_js (obj_get config "bankPublicKey") (env_get env "BANK_PUBLIC_KEY") in
  let calbackUrl_ := or_js (obj_get config "calbackUrl") (env_get env "CALLBACK_URL") in
  let useTest_ :=
    or_js (or_js (obj_get config "useTest") (env_get env "USE_TEST")) (VBool false) in
  let merchantId_ := or_js (obj_get config "merchantId") (env_get env "MERCHANT_ID") in
  let version :=
    or_js (or_js (obj_get config "apiVersion") (env_get env "API_VERSION")) (VStr "1.0") in
  cur ← get_prop h (obj_get config "apiVersion") "currency";
  lang ← get_prop h (obj_get config "apiVersion") "language";
  ctry ← get_prop h (obj_get config "apiVersion") "country";
  Normal
    {| client_logger := log;
       config :=
         {| secret := secret_;
            bankPublicKey := bankPublicKey_;
            calbackUrl := calbackUrl_;
            useTest := useTest_;
            merchantId := merchantId_;
            apiVersion := version;
            currency := or_js cur (VStr "CZK");
            language := or_js lang (VStr "cs");
            country := or_js ctry (VStr "CZ");
            gateUrl :=
              ToString (or_js (obj_get config "gateUrl") (env_get env "GATEWAY_URL"))
              +:+ "/v" +:+ ToString version;
            payloadTemplate :=
              obj_lit [("merchantId", merchantId_); ("payOperation", VStr "payment");
                       ("payMethod", VStr "card"); ("currency", VStr "CZK");
                       ("language", VStr "CZ"); ("returnUrl", calbackUrl_);
                       ("returnMethod", VStr "POST")] |} |}.

Definition new_client (h : heap) (config : option obj) (env : gmap string string)
  : completion client :=
  constructor h (default ∅ config) env.

(** The [FormData] built from [data]: each value is handed over as
    [data[key] || ''], not converted.  As in the current client, the order
    among the fields after [type] is that of [map_to_list], not the key
    order of the object. *)
Definition form_data (data : obj) : list (string * value) :=
  ("type", VStr "json") :: ((λ kv, (kv.1, or_js kv.2 (VStr ""))) <$> map_to_list data).

Definition on_json (status : Z) (j : json) : completion (promise result) :=
  error ← json_get j "error";
  match error with
  | Some err =>
      if json_truthy err
      then Normal (Rejected (APIError_new (VStr (JSON_stringify err)) (VNum status)))
      else Normal (Resolved (RJson j))
  | None => Normal (Resolved (RJson j))
  end.

(** [fetch(...).then(res => { ... })]'s callback: every successful
    response is read as JSON. *)
Definition on_response (res : response) : completion (promise result) :=
  if negb (res_ok res) then
    p ← res_text res;
    Normal (promise_then p (λ errorBody,
      Normal (Rejected (APIError_new (VStr errorBody) (VNum (res_status res))))))
  else
    p ← res_json res;
    Normal (promise_then p (on_json (res_status res))).

(** [_makeAPICall(path, data, method = 'POST')] *)
Definition _makeAPICall (this : client) (fetch : request → promise response)
    (path : string) (data : option obj) (method : option string) : call :=
  let params :=
    {| req_url := gateUrl (config this) +:+ "/" +:+ path;
       req_method := default "POST" method;
       req_body := form_data <$> data;
       req_accept := None |} in
  {| sent := params; returned := promise_then (fetch params) on_response |}.

Definition methods (this : client) (fetch : request → promise response) : call :=
  let c := config this in
  _makeAPICall this fetch "methods"
    (Some (obj_lit [("merchant", merchantId c); ("secret", secret c);
                    ("lang", language c); ("curr", currency c);
                    ("country", country c)]))
    None.

Definition status (this : client) (fetch : request → promise response)
    (transactionId : value) : call :=
  let c := config this in
  _makeAPICall this fetch "methods"
    (Some (obj_lit [("merchant", merchantId c); ("transId", transactionId);
                    ("secret", secret c)]))
    None.

End Index.

(** * The specification's side *)

(** The resolution rule of a configuration field in the specification's
    words: the explicit option if truthy, else the environment value if
    truthy, else the built-in default, else absent (undefined).  A field
    with no environment source has [environment = VUndefined]. *)
Definition spec_resolve (explicit environment : value) (built_in : option value) : value :=
  if truthy explicit then explicit
  else if truthy environment then environment
  else default VUndefined built_in.

(** A field that has no built-in default follows [spec_resolve], but for one
    case: with no truthy option, a variable set to the empty string is
    handed on as it is, and the field is the empty string, not absent.  The
    field is fixed in every case. *)
Definition resolves_without_default (field explicit : value) (variable : option string)
  : Prop :=
  field = if negb (truthy explicit) && bool_decide (variable = Some "")
          then VStr ""
          else spec_resolve explicit (from_option VStr VUndefined variable) None.

(** The path of [url] relative to the base [gate]: what follows [gate/]. *)
Fixpoint strip_prefix (p s : string) : option string :=
  match p, s with
  | EmptyString, _ => Some s
  | String a p', String b s' => if Ascii.eqb a b then strip_prefix p' s' else None
  | String _ _, EmptyString => None
  end.

Definition relative_path (gate url : string) : option string :=
  strip_prefix (gate +:+ "/") url.

(** ** Concrete inputs used below *)

(** A client built with no options in an empty environment. *)
Definition bare_client : Part000.client := Part000.new_client None ∅.

(** A transport that answers every request with [res]. *)
Definition answering (res : response) : request → promise response := λ _, Resolved res.

(** A successful response that declares both [text/html] and
    [application/json]; its URL-encoded body is not JSON. *)
Definition mixed_type_response (body : string) : response :=
  fetched 200 (Some "text/html; profile=application/json") body None.

(** * Properties of the runtime model *)

Example URLSearchParams_ok :
  URLSearchParams "code=0&message=ok&foo=bar" = [("code", "0"); ("message", "ok"); ("foo", "bar")].
Proof. reflexivity. Qed.

Example URLSearchParams_decoding :
  URLSearchParams "?a=x+y%21&&b&=c%zz" = [("a", "x y!"); ("b", ""); ("", "c%zz")].
Proof. reflexivity. Qed.

Example collect_params_last_wins :
  collect_params (URLSearchParams "code=1&__proto__=x&code=0") = {[ "code" := "0" ]}.
Proof. reflexivity. Qed.

Example URLSearchParams_ill_formed :
  URLSearchParams "a=%FF&b=%C3%A9&c=%E2%82&d=%C3(&e=%ED%A0%80&f=%F0%9F%98%80"
  = [("a", replacement);
     ("b", String "195"%char (String "169"%char ""));
     ("c", replacement);
     ("d", replacement +:+ "(");
     ("e", replacement +:+ replacement +:+ replacement);
     ("f", String "240"%char (String "159"%char (String "152"%char (String "128"%char ""))))].
Proof. reflexivity. Qed.

(** Decoding leaves text without bytes above 127 as it is. *)
Lemma utf8_decode_ascii (s : string) :
  (∀ c, c ∈ String.list_ascii_of_string s → N.leb (N_of_ascii c) 127 = true) →
  utf8_decode s = s.
Proof.
  unfold utf8_decode. induction s as [|c s IH]; [done|].
  intros H. cbn [utf8_run utf8_start utf8_needed]. unfold utf8_lead.
  rewrite (H c) by apply list_elem_of_here.
  change (String c (utf8_run utf8_start s) = String c s).
  rewrite IH; [done|]. intros c' Hc'. apply H. by apply list_elem_of_further.
Qed.

Example JSON_stringify_property_order :
  JSON_stringify (JObj [("b", JNum 1); ("2", JNull); ("a", JBool true); ("1", JNum 0);
                        ("b", JNum 9); ("01", JNum 3)])
  = "{" +:+ json_quote "1" +:+ ":0," +:+ json_quote "2" +:+ ":null,"
        +:+ json_quote "b" +:+ ":9," +:+ json_quote "a" +:+ ":true,"
        +:+ json_quote "01" +:+ ":3}".
Proof. reflexivity. Qed.

Example JSON_stringify_ex :
  JSON_stringify (JObj [("a", JArr [JNum 1; JNull]); ("b", JStr "x")])
  = "{" +:+ json_quote "a" +:+ ":[1,null]," +:+ json_quote "b" +:+ ":" +:+ json_quote "x" +:+ "}".
Proof. reflexivity. Qed.

(** The mapping collected from the pairs, by what each assignment does. *)
Lemma collect_params_snoc (l : list (string * string)) (k v : string) :
  collect_params (l ++ [(k, v)]) = obj_assign (collect_params l) k v.
Proof. unfold collect_params. by rewrite foldl_app. Qed.

(** [__proto__] never becomes an entry, and every entry comes from a pair
    of the body. *)
Lemma collect_params_sound (l : list (string * string)) (k v : string) :
  collect_params l !! k = Some v → k ≠ "__proto__" ∧ (k, v) ∈ l.
Proof.
  induction l as [|[k' v'] l IH] using rev_ind; [done|].
  rewrite collect_params_snoc. unfold obj_assign.
  destruct (String.eqb_spec k' "__proto__") as [->|Hk'].
  - intros H. destruct (IH H) as [? ?]. split; [done|]. apply elem_of_app. by left.
  - destruct (decide (k' = k)) as [->|Hne].
    + rewrite lookup_insert_eq. intros [= ->]. split; [done|].
      apply elem_of_app. right. by apply list_elem_of_singleton.
    + rewrite lookup_insert_ne by done. intros H. destruct (IH H) as [? ?].
      split; [done|]. apply elem_of_app. by left.
Qed.

(** The last pair of a name is the one that stays. *)
Lemma collect_params_last (l : list (string * string)) (k v : string) :
  k ≠ "__proto__" → collect_params (l ++ [(k, v)]) !! k = Some v.
Proof.
  intros Hk. rewrite collect_params_snoc. unfold obj_assign.
  destruct (String.eqb_spec k "__proto__"); [done|]. by rewrite lookup_insert_eq.
Qed.

(** The nested [||] of the constructor against the rule of the
    specification. *)
Lemma or_js_chain (a b d : value) : or_js (or_js a b) d = spec_resolve a b (Some d).
Proof.
  unfold or_js, spec_resolve.
  destruct (truthy a) eqn:Ha; [by rewrite Ha|].
  by destruct (truthy b).
Qed.

Lemma or_js_default (a d : value) : or_js a d = spec_resolve a VUndefined (Some d).
Proof. unfold or_js, spec_resolve. by destruct (truthy a). Qed.

Lemma or_js_env (a : value) (env : gmap string string) (k : string) :
  resolves_without_default (or_js a (env_get env k)) a (env !! k).
Proof.
  unfold resolves_without_default, or_js, spec_resolve, env_get.
  destruct (truthy a) eqn:Ha; [done|].
  destruct (env !! k) as [[|c s]|]; by simpl.
Qed.

(** The rule leaves one value for the field, and with a falsy option and the
    variable set to the empty string that value is the empty string. *)
Lemma resolves_without_default_exact (f g a : value) (variable : option string) :
  resolves_without_default f a variable → resolves_without_default g a variable → f = g.
Proof. unfold resolves_without_default. congruence. Qed.

Lemma resolves_without_default_empty (f a : value) :
  truthy a = false → resolves_without_default f a (Some "") → f = VStr "".
Proof. unfold resolves_without_default. intros Ha. by rewrite Ha. Qed.

Create HintDb resolution.
#[local] Hint Resolve or_js_chain or_js_default or_js_env : resolution.

Lemma truthy_not_nullish (v : value) : truthy v = true → v ≠ VUndefined ∧ v ≠ VNull.
Proof. by destruct v. Qed.

Lemma or_js_false_not_nullish (a : value) :
  or_js a (VBool false) ≠ VUndefined ∧ or_js a (VBool false) ≠ VNull.
Proof.
  unfold or_js. destruct (truthy a) eqn:Ha; [|done]. by apply truthy_not_nullish.
Qed.

Lemma toString_total (v : value) :
  v ≠ VUndefined → v ≠ VNull → toString v = Normal (ToString v).
Proof. by destruct v. Qed.

Lemma includes_prefix (s sub : string) : String.prefix sub s = true → includes s sub = true.
Proof. intros H. destruct s; cbn [includes]; by rewrite H. Qed.

Lemma append_assoc (a b c : string) : (a +:+ b) +:+ c = a +:+ (b +:+ c).
Proof.
  induction a as [|x a IH]; [done|].
  change (String x ((a +:+ b) +:+ c) = String x (a +:+ (b +:+ c))). by rewrite IH.
Qed.

Lemma strip_prefix_app (p s : string) : strip_prefix p (p +:+ s) = Some s.
Proof.
  induction p as [|a p IH]; simpl; [done|].
  by rewrite Ascii.eqb_refl.
Qed.

Lemma relative_path_joined (gate path : string) :
  relative_path gate (gate +:+ "/" +:+ path) = Some path.
Proof.
  unfold relative_path. rewrite <- append_assoc. apply strip_prefix_app.
Qed.

(** [then] on a promise that is already settled. *)
Lemma promise_then_rejected {A B} (e : js_error) (f : A → completion (promise B)) :
  promise_then (Rejected e) f = Rejected e.
Proof. done. Qed.

(** A network failure reaches the caller as the rejection it is. *)
Lemma network_failure_rejects (this : Part000.client) (fetch : request → promise response)
    (path : string) (data : option obj) (method : option string) (e : js_error) :
  fetch (sent (Part000._makeAPICall this fetch path data method)) = Rejected e →
  returned (Part000._makeAPICall this fetch path data method) = Rejected e.
Proof. intros Hf. destruct data; simpl in *; by rewrite Hf. Qed.

(** * Error objects (C3) *)

Lemma APIError_message (m : string) (status : value) :
  err_get (Part000.APIError_new (VStr m) status) "message" = VStr m
  ∧ err_get (Part000.APIError_new (VStr m) status) "name" = VStr "APIError".
Proof. done. Qed.

Lemma PaymentError_message (m : string) (code : value) :
  err_get (Part000.PaymentError_new (VStr m) code) "message" = VStr m
  ∧ err_get (Part000.PaymentError_new (VStr m) code) "name" = VStr "PaymentError".
Proof. done. Qed.

Lemma Error_init_keys (message : value) (k : string) :
  k ≠ "message" → Error_init message !! k = None.
Proof.
  intros Hk. destruct message; simpl; try done; by rewrite lookup_singleton_ne.
Qed.

(** Reading a property other than [name] and [message] off an error whose
    own properties are these two. *)
Ltac read_other_key :=
  unfold err_get; simpl;
  rewrite lookup_insert_ne by done; rewrite Error_init_keys by done;
  unfold err_proto;
  repeat match goal with
         | |- context [String.eqb ?k ?s] => destruct (String.eqb_spec k s); [done|]
         end;
  done.

(** An [APIError] has two properties that answer: [name] and [message]. *)
Lemma APIError_own_keys (message status : value) (k : string) :
  k ≠ "name" → k ≠ "message" →
  err_get (Part000.APIError_new message status) k = VUndefined.
Proof. intros Hn Hm. unfold Part000.APIError_new. read_other_key. Qed.

Lemma PaymentError_own_keys (message code : value) (k : string) :
  k ≠ "name" → k ≠ "message" →
  err_get (Part000.PaymentError_new message code) k = VUndefined.
Proof. intros Hn Hm. unfold Part000.PaymentError_new. read_other_key. Qed.

(** C3, evaluated on the code: an error built as [new APIError("boom", 500)]
    has the message but no [status] (reading it gives undefined), and an
    error built as [new PaymentError("failed", "1")] has the message but no
    [code]; the constructed object is the same whatever second argument it
    was given, in both classes and in both variants of the client. *)
Theorem error_second_argument_dropped :
  err_get (Part000.APIError_new (VStr "boom") (VNum 500)) "message" = VStr "boom"
  ∧ err_get (Part000.APIError_new (VStr "boom") (VNum 500)) "status" = VUndefined
  ∧ err_get (Part000.PaymentError_new (VStr "failed") (VStr "1")) "message" = VStr "failed"
  ∧ err_get (Part000.PaymentError_new (VStr "failed") (VStr "1")) "code" = VUndefined
  ∧ (∀ message s1 s2, Part000.APIError_new message s1 = Part000.APIError_new message s2)
  ∧ (∀ message c1 c2, Part000.PaymentError_new message c1 = Part000.PaymentError_new message c2)
  ∧ (∀ message s1 s2, Index.APIError_new message s1 = Index.APIError_new message s2).
Proof.
  split; [apply APIError_message|].
  split; [by apply APIError_own_keys|].
  split; [apply PaymentError_message|].
  split; [by apply PaymentError_own_keys|].
  by repeat split.
Qed.

(** * Form fields (C4) *)

Lemma form_value_toString (v : value) :
  toString (or_js v (VStr "")) = Normal (Part000.form_value v).
Proof.
  unfold Part000.form_value, or_js.
  destruct (truthy v) eqn:Hv; [|done]. by destruct v.
Qed.

Lemma form_value_truthy (v : value) :
  truthy v = true → Part000.form_value v = ToString v.
Proof. intros H. unfold Part000.form_value, or_js. by rewrite H. Qed.

Lemma form_value_falsy (v : value) :
  truthy v = false → Part000.form_value v = "".
Proof. intros H. unfold Part000.form_value, or_js. by rewrite H. Qed.

(** The cases in which the conversion does what is asked of it. *)
Lemma form_value_cases (n : Z) (s : string) :
  Part000.form_value (VBool true) = "true"
  ∧ Part000.form_value VNull = ""
  ∧ Part000.form_value VUndefined = ""
  ∧ Part000.form_value (VStr s) = s
  ∧ (n ≠ 0 → Part000.form_value (VNum n) = pretty n).
Proof.
  repeat split.
  - unfold Part000.form_value, or_js; simpl. by destruct s.
  - intros Hn. apply form_value_truthy. simpl. by destruct (Z.eqb_spec n 0).
Qed.

Lemma form_data_type (data : obj) :
  head (Part000.form_data data) = Some ("type", VStr "json").
Proof. done. Qed.

Lemma form_data_strings (data : obj) :
  Forall (λ kv, ∃ s, kv.2 = VStr s) (Part000.form_data data).
Proof.
  unfold Part000.form_data. constructor; [by eexists|].
  apply Forall_fmap, Forall_forall. intros [k v] _. by eexists.
Qed.

Lemma form_data_field (data : obj) (k : string) (v : value) :
  data !! k = Some v → (k, VStr (Part000.form_value v)) ∈ Part000.form_data data.
Proof.
  intros H. unfold Part000.form_data. apply list_elem_of_further.
  apply list_elem_of_fmap. exists (k, v). split; [done|].
  by apply elem_of_map_to_list.
Qed.

(** Every field sent comes from [type] or from an entry of [data]. *)
Lemma form_data_only (data : obj) (k : string) (w : value) :
  (k, w) ∈ Part000.form_data data →
  (k = "type" ∧ w = VStr "json")
  ∨ ∃ v, data !! k = Some v ∧ w = VStr (Part000.form_value v).
Proof.
  unfold Part000.form_data. intros [H|H]%elem_of_cons; [left; by inversion H|right].
  apply list_elem_of_fmap in H as [[k' v] [Heq Hin]].
  apply elem_of_map_to_list in Hin. inversion Heq; subst. by exists v.
Qed.

(** The older client hands the values over as they are. *)
Example Index_form_data_raw :
  Index.form_data {[ "prepareOnly" := VBool true ]}
  = [("type", VStr "json"); ("prepareOnly", VBool true)].
Proof. reflexivity. Qed.

(** C4, evaluated on the code: the value [false] is sent as the empty string
    and not as the string false, and the number [0] as the empty string and
    not as the digit; so [create()] on a client built without options sends
    an empty [test] field, where [refund()] sends the string false. *)
Theorem falsy_fields_sent_empty :
  Part000.form_value (VBool false) = ""
  ∧ Part000.form_value (VNum 0) = ""
  ∧ Part000.form_data {[ "test" := VBool false ]} = [("type", VStr "json"); ("test", VStr "")]
  ∧ Part000.form_data {[ "price" := VNum 0 ]} = [("type", VStr "json"); ("price", VStr "")]
  ∧ (∃ body, req_body (sent (Part000.create bare_client (answering (fetched 200 None "" None)) None))
             = Some body ∧ ("test", VStr "") ∈ body)
  ∧ (∃ c body, (Part000.refund bare_client (answering (fetched 200 None "" None))
                  (VStr "T1") 1%positive {[ 1%positive := ∅ ]}).2 = Normal c
               ∧ req_body (sent c) = Some body ∧ ("test", VStr "false") ∈ body).
Proof.
  split; [by apply form_value_falsy|].
  split; [by apply form_value_falsy|].
  split; [reflexivity|]. split; [reflexivity|]. split.
  - eexists. split; [reflexivity|].
    apply (form_data_field _ "test" (VBool false)). by vm_compute.
  - eexists _, _. split; [reflexivity|]. split; [reflexivity|].
    apply (form_data_field _ "test" (VStr "false")). by vm_compute.
Qed.

(** * Configuration resolution (C5, C8) *)



Example gateUrl_derivation :
  Part000.gateUrl (Part000.config (Part000.constructor {[ "apiVersion" := VStr "2.0" ]} ∅))
  = "https://payments.comgate.cz/v2.0".
Proof. reflexivity. Qed.

Example merchantId_precedence :
  Part000.merchantId
    (Part000.config (Part000.constructor {[ "merchantId" := VStr "A" ]} {[ "MERCHANT_ID" := "B" ]}))
  = VStr "A"
  ∧ Part000.merchantId (Part000.config (Part000.constructor ∅ {[ "MERCHANT_ID" := "B" ]}))
    = VStr "B"
  ∧ Part000.merchantId (Part000.config (Part000.constructor ∅ ∅)) = VUndefined.
Proof. by repeat split. Qed.

(** The older client has no default base: the text undefined is joined in. *)
Example Index_gateUrl_no_default :
  Index.gateUrl <$> (Index.config <$> Index.constructor ∅ {[ "apiVersion" := VStr "2.0" ]} ∅)
  = Normal "undefined/v2.0".
Proof. reflexivity. Qed.

(** The older client ignores the [currency] option. *)
Example Index_currency_option_ignored :
  Index.currency <$> (Index.config <$>
    Index.constructor ∅ {[ "apiVersion" := VStr "2.0"; "currency" := VStr "EUR" ]} ∅)
  = Normal (VStr "CZK").
Proof. reflexivity. Qed.

(** The older constructor throws exactly when the [apiVersion] option is
    undefined or null. *)
Lemma Index_constructor_throws (h : heap) (o : obj) (env : gmap string string) :
  (∃ e, Index.constructor h o env = Throw e)
  ↔ obj_get o "apiVersion" = VUndefined ∨ obj_get o "apiVersion" = VNull.
Proof.
  unfold Index.constructor. split.
  - intros [e He]. destruct (obj_get o "apiVersion"); simpl in He; try done; auto.
  - intros [-> | ->]; simpl; by eexists.
Qed.

(** The current constructor gives its fields from any options and
    environment: nothing in it can throw, and a missing [secret] or
    [merchantId] is left undefined. *)
Lemma Part000_constructor_permissive (env : gmap string string) :
  env !! "MERCHANT_SECRET" = None → env !! "MERCHANT_ID" = None →
  Part000.secret (Part000.config (Part000.new_client None env)) = VUndefined
  ∧ Part000.merchantId (Part000.config (Part000.new_client None env)) = VUndefined.
Proof. intros Hs Hm. simpl. unfold env_get. by rewrite Hs, Hm. Qed.

(** C8, evaluated on the code: in the older client, construction from the
    empty options [{}] (which is also the default argument) throws a
    [TypeError], whatever the environment: [config.apiVersion] is undefined
    and [currency] is read off it. *)
Theorem Index_constructor_empty_throws (h : heap) (env : gmap string string) :
  Index.new_client h None env
  = Throw (TypeError_new "Cannot read properties of undefined (reading 'currency')")
  ∧ Index.constructor h ∅ env
    = Throw (TypeError_new "Cannot read properties of undefined (reading 'currency')")
  ∧ Index.constructor h {[ "merchantId" := VStr "A"; "secret" := VStr "s" ]} env
    = Throw (TypeError_new "Cannot read properties of undefined (reading 'currency')").
Proof. done. Qed.

(** * Response interpretation (C1, C2, C6, C7) *)

Lemma on_response_no_content_type (res : response) :
  res_content_type res = None →
  Part000.on_response res
  = Throw (TypeError_new "Cannot read properties of null (reading 'includes')").
Proof. intros H. unfold Part000.on_response. by rewrite H. Qed.

Lemma on_response_not_ok (res : response) (ct body : string) :
  res_content_type res = Some ct → res_ok res = false →
  res_text res = Normal (Resolved body) →
  Part000.on_response res
  = Normal (Rejected (Part000.APIError_new (VStr body) (VNum (res_status res)))).
Proof. intros Hct Hok Ht. unfold Part000.on_response. by rewrite Hct, Hok, Ht. Qed.

(** A rejection of the promise of [res.json()] is not an exception of the
    [try] block: it passes through [then] as it is. *)
Lemma on_response_json_rejected (res : response) (ct : string) (e : js_error) :
  res_content_type res = Some ct → res_ok res = true →
  includes ct "application/json" = true →
  res_json res = Normal (Rejected e) →
  Part000.on_response res = Normal (Rejected e).
Proof. intros Hct Hok Hj Hr. unfold Part000.on_response. by rewrite Hct, Hok, Hj, Hr. Qed.

(** What the [catch] clause does catch: an exception thrown by the call
    [res.json()] or [res.text()] itself. *)
Lemma on_response_sync_throw (res : response) (ct : string) (e : js_error) :
  res_content_type res = Some ct → res_ok res = true →
  res_json res = Throw e → res_text res = Throw e →
  Part000.on_response res
  = Normal (Rejected (Part000.APIError_new (VStr (Error_toString e)) (VNum (res_status res)))).
Proof.
  intros Hct Hok Hj Ht. unfold Part000.on_response. rewrite Hct, Hok, Hj, Ht.
  by destruct (includes ct "application/json").
Qed.

Lemma on_response_text (res : response) (ct payload : string) :
  res_content_type res = Some ct → res_ok res = true →
  includes ct "application/json" = false →
  res_text res = Normal (Resolved payload) →
  Part000.on_response res
  = Normal (match Part000.on_text ct payload with
            | Normal q => q
            | Throw e => Rejected e
            end).
Proof. intros Hct Hok Hj Ht. unfold Part000.on_response. by rewrite Hct, Hok, Hj, Ht. Qed.

Lemma code_is_zero (out : gmap string string) :
  bool_decide (str_get out "code" = VStr "0") = true ↔ out !! "code" = Some "0".
Proof.
  rewrite bool_decide_eq_true. unfold str_get.
  destruct (out !! "code") as [s|]; simpl; split; intros H; try done; congruence.
Qed.

(** The older client checks the status before anything else. *)
Lemma Index_not_ok_rejects_APIError (res : response) (body : string) :
  res_ok res = false →
  res_text res = Normal (Resolved body) →
  Index.on_response res
  = Normal (Rejected (Index.APIError_new (VStr body) (VNum (res_status res)))).
Proof. intros Hok Ht. unfold Index.on_response. by rewrite Hok, Ht. Qed.

Section dispatcher.
Context (this : Part000.client) (path : string) (data : option obj) (method : option string).

Lemma returned_then (fetch : request → promise response) :
  returned (Part000._makeAPICall this fetch path data method)
  = promise_then (fetch (sent (Part000._makeAPICall this fetch path data method)))
                 Part000.on_response.
Proof. by destruct data. Qed.

Lemma returned_answering (res : response) :
  returned (Part000._makeAPICall this (answering res) path data method)
  = match Part000.on_response res with
    | Normal q => q
    | Throw e => Rejected e
    end.
Proof. by destruct data. Qed.

(** A JSON body that parsed to null makes the callback itself throw. *)
Example json_null_body :
  returned (Part000._makeAPICall this
              (answering (fetched 200 (Some "application/json") "null" (Some JNull)))
              path data method)
  = Rejected (TypeError_new "Cannot read properties of null (reading 'error')").
Proof. by rewrite returned_answering. Qed.

Example json_error_field :
  returned (Part000._makeAPICall this
              (answering (fetched 200 (Some "application/json; charset=utf-8") "ignored"
                                  (Some (JObj [("error", JStr "X")]))))
              path data method)
  = Rejected (Part000.APIError_new (VStr (json_quote "X")) (VNum 200)).
Proof. by rewrite returned_answering. Qed.

(** C1, evaluated on the code: a response with status 200 that declares
    [application/json] and carries a malformed body makes the promise of
    [res.json()] reject; the call then rejects with that [FetchError]
    itself, which is not an [APIError]: the [try] block has ended by then
    and its [catch] clause never sees the rejection. *)
Theorem malformed_json_rejects_raw :
  let res := fetched 200 (Some "application/json") "{" None in
  res_ok res = true
  ∧ returned (Part000._makeAPICall this (answering res) path data method)
    = Rejected (FetchError_new "invalid json response body" "invalid-json")
  ∧ ¬ is_rejected_with
        (returned (Part000._makeAPICall this (answering res) path data method)) APIErrorC.
Proof.
  intros res. split; [done|].
  rewrite returned_answering.
  rewrite (on_response_json_rejected res "application/json"
             (FetchError_new "invalid json response body" "invalid-json")) by done.
  split; [done|]. simpl. discriminate.
Qed.

(** C2, evaluated on the code: a response with status 500 and no
    [Content-Type] header makes the call reject with the [TypeError] of
    [contentType.includes] and not with an [APIError]; with a header present
    the call rejects with an [APIError] whose message is the body text, and
    which holds no status. *)
Theorem error_status_without_content_type :
  let res := fetched 500 None "Internal Server Error" None in
  let res' := fetched 500 (Some "text/plain") "Internal Server Error" None in
  res_ok res = false
  ∧ returned (Part000._makeAPICall this (answering res) path data method)
    = Rejected (TypeError_new "Cannot read properties of null (reading 'includes')")
  ∧ ¬ is_rejected_with
        (returned (Part000._makeAPICall this (answering res) path data method)) APIErrorC
  ∧ (∃ e, returned (Part000._makeAPICall this (answering res') path data method) = Rejected e
          ∧ err_class e = APIErrorC
          ∧ err_get e "message" = VStr "Internal Server Error"
          ∧ err_get e "status" = VUndefined).
Proof.
  intros res res'. split; [done|].
  rewrite !returned_answering.
  rewrite (on_response_no_content_type res) by done.
  rewrite (on_response_not_ok res' "text/plain" "Internal Server Error") by done.
  split; [done|]. split; [simpl; discriminate|].
  eexists. by repeat split.
Qed.

(** The rest of this section is about one exchange: [fetch] answers the
    request of the call with [res]. *)
Context (fetch : request → promise response) (res : response).
Hypothesis fetch_answers :
  fetch (sent (Part000._makeAPICall this fetch path data method)) = Resolved res.

(** Outside 200-299 and with a [Content-Type] header, whatever it declares,
    the call rejects with an [APIError] carrying the body text. *)
Lemma not_ok_rejects_APIError (ct body : string) :
  res_ok res = false →
  res_content_type res = Some ct →
  res_text res = Normal (Resolved body) →
  ∃ e, returned (Part000._makeAPICall this fetch path data method) = Rejected e
       ∧ err_class e = APIErrorC ∧ err_get e "message" = VStr body.
Proof.
  intros Hok Hct Ht. rewrite returned_then, fetch_answers. simpl.
  rewrite (on_response_not_ok _ ct body) by done.
  eexists. by repeat split.
Qed.

(** An exception thrown by the body-reading call itself is remapped. *)
Lemma sync_throw_rejects_APIError (ct : string) (e : js_error) :
  res_ok res = true →
  res_content_type res = Some ct →
  res_json res = Throw e → res_text res = Throw e →
  returned (Part000._makeAPICall this fetch path data method)
  = Rejected (Part000.APIError_new (VStr (Error_toString e)) (VNum (res_status res))).
Proof.
  intros Hok Hct Hj Ht. rewrite returned_then, fetch_answers. simpl.
  by rewrite (on_response_sync_throw _ ct e).
Qed.

(** The response is a successful one that is not JSON and is URL-encoded or
    HTML by its content type [ct]; its text is [payload]. *)
Context (ct payload : string).
Hypothesis status_ok : res_ok res = true.
Hypothesis declared : res_content_type res = Some ct.
Hypothesis not_json : includes ct "application/json" = false.
Hypothesis urlencoded_or_html :
  includes ct "form-urlencoded" || includes ct "text/html" = true.
Hypothesis text_read : res_text res = Normal (Resolved payload).

Lemma returned_on_text :
  returned (Part000._makeAPICall this fetch path data method)
  = if bool_decide (str_get (collect_params (URLSearchParams payload)) "code" = VStr "0")
    then Resolved (RFields (delete "message" (delete "code"
                      (collect_params (URLSearchParams payload)))))
    else Rejected (Part000.PaymentError_new
                     (str_get (collect_params (URLSearchParams payload)) "message")
                     (str_get (collect_params (URLSearchParams payload)) "code")).
Proof.
  rewrite returned_then, fetch_answers. simpl.
  rewrite (on_response_text res ct payload) by done.
  unfold Part000.on_text. rewrite urlencoded_or_html.
  by destruct (bool_decide _).
Qed.

(** C6, amended: for a response with a status in 200-299 whose content type
    does not contain [application/json] and contains [form-urlencoded] or
    [text/html], and whose URL-encoded body has the code [0], the call
    resolves with the parsed mapping without its [code] and [message]
    entries, every other entry unchanged. *)
Theorem code_zero_resolves_stripped :
  collect_params (URLSearchParams payload) !! "code" = Some "0" →
  ∃ stripped,
    returned (Part000._makeAPICall this fetch path data method) = Resolved (RFields stripped)
    ∧ stripped !! "code" = None
    ∧ stripped !! "message" = None
    ∧ ∀ k, k ≠ "code" → k ≠ "message" →
           stripped !! k = collect_params (URLSearchParams payload) !! k.
Proof.
  intros Hcode.
  exists (delete "message" (delete "code" (collect_params (URLSearchParams payload)))).
  split.
  - rewrite returned_on_text. apply code_is_zero in Hcode. by rewrite Hcode.
  - split; [by rewrite lookup_delete_ne, lookup_delete_eq|].
    split; [by rewrite lookup_delete_eq|].
    intros k Hc Hm. by rewrite !lookup_delete_ne.
Qed.

(** C7, amended: for a response with a status in 200-299 whose content type
    does not contain [application/json] and contains [form-urlencoded] or
    [text/html], and whose URL-encoded body has a code other than [0], or no
    code, the call rejects with the [PaymentError] constructed from the
    mapping's [message] and [code]. *)
Theorem code_nonzero_rejects_PaymentError :
  collect_params (URLSearchParams payload) !! "code" ≠ Some "0" →
  returned (Part000._makeAPICall this fetch path data method)
  = Rejected (Part000.PaymentError_new
                (str_get (collect_params (URLSearchParams payload)) "message")
                (str_get (collect_params (URLSearchParams payload)) "code"))
  ∧ is_rejected_with (returned (Part000._makeAPICall this fetch path data method))
                     PaymentErrorC.
Proof.
  intros Hcode. rewrite returned_on_text.
  destruct (bool_decide _) eqn:Hb; [by apply code_is_zero in Hb|done].
Qed.

End dispatcher.

(** C6 as stated fails when the content type, besides [text/html], also
    contains [application/json]: the JSON branch is tried first, and the
    URL-encoded body makes [res.json()] reject. *)
Lemma json_branch_before_code_zero :
  res_ok (mixed_type_response "code=0&message=ok&foo=bar") = true
  ∧ res_content_type (mixed_type_response "code=0&message=ok&foo=bar")
    = Some "text/html; profile=application/json"
  ∧ includes "text/html; profile=application/json" "text/html" = true
  ∧ collect_params (URLSearchParams "code=0&message=ok&foo=bar") !! "code" = Some "0"
  ∧ returned (Part000._makeAPICall bare_client
                (answering (mixed_type_response "code=0&message=ok&foo=bar"))
                "status" None None)
    = Rejected (FetchError_new "invalid json response body" "invalid-json")
  ∧ returned (Part000._makeAPICall bare_client
                (answering (mixed_type_response "code=0&message=ok&foo=bar"))
                "status" None None)
    ≠ Resolved (RFields {[ "foo" := "bar" ]}).
Proof. by repeat split. Qed.

Lemma code_zero_resolves_stripped_witness :
  ∃ stripped,
    returned (Part000._makeAPICall bare_client
                (answering (fetched 200 (Some "application/x-www-form-urlencoded")
                                    "code=0&message=ok&foo=bar" None))
                "status" None None)
    = Resolved (RFields stripped)
    ∧ stripped !! "code" = None
    ∧ stripped !! "message" = None
    ∧ ∀ k, k ≠ "code" → k ≠ "message" →
           stripped !! k = collect_params (URLSearchParams "code=0&message=ok&foo=bar") !! k.
Proof.
  apply (code_zero_resolves_stripped bare_client "status" None None
           (answering (fetched 200 (Some "application/x-www-form-urlencoded")
                               "code=0&message=ok&foo=bar" None))
           (fetched 200 (Some "application/x-www-form-urlencoded")
                    "code=0&message=ok&foo=bar" None)
           eq_refl
           "application/x-www-form-urlencoded" "code=0&message=ok&foo=bar");
    reflexivity.
Defined.

Example code_zero_example :
  returned (Part000._makeAPICall bare_client
              (answering (fetched 200 (Some "text/html; charset=utf-8")
                                  "code=0&message=ok&foo=bar" None))
              "status" None None)
  = Resolved (RFields {[ "foo" := "bar" ]}).
Proof. reflexivity. Qed.

(** C7 as stated fails on the same content type: the call rejects with the
    [FetchError] of the JSON branch, not with a [PaymentError]. *)
Lemma json_branch_before_code_nonzero :
  res_ok (mixed_type_response "code=1&message=failed") = true
  ∧ res_content_type (mixed_type_response "code=1&message=failed")
    = Some "text/html; profile=application/json"
  ∧ includes "text/html; profile=application/json" "text/html" = true
  ∧ collect_params (URLSearchParams "code=1&message=failed") !! "code" = Some "1"
  ∧ returned (Part000._makeAPICall bare_client
                (answering (mixed_type_response "code=1&message=failed"))
                "status" None None)
    = Rejected (FetchError_new "invalid json response body" "invalid-json")
  ∧ returned (Part000._makeAPICall bare_client
                (answering (mixed_type_response "code=1&message=failed"))
                "status" None None)
    ≠ Rejected (Part000.PaymentError_new (VStr "failed") (VStr "1")).
Proof. by repeat split. Qed.

Lemma code_nonzero_rejects_PaymentError_witness :
  returned (Part000._makeAPICall bare_client
              (answering (fetched 200 (Some "text/html") "code=1&message=failed" None))
              "status" None None)
  = Rejected (Part000.PaymentError_new
                (str_get (collect_params (URLSearchParams "code=1&message=failed")) "message")
                (str_get (collect_params (URLSearchParams "code=1&message=failed")) "code"))
  ∧ is_rejected_with
      (returned (Part000._makeAPICall bare_client
                   (answering (fetched 200 (Some "text/html") "code=1&message=failed" None))
                   "status" None None))
      PaymentErrorC.
Proof.
  apply (code_nonzero_rejects_PaymentError bare_client "status" None None
           (answering (fetched 200 (Some "text/html") "code=1&message=failed" None))
           (fetched 200 (Some "text/html") "code=1&message=failed" None)
           eq_refl
           "text/html" "code=1&message=failed");
    try reflexivity.
  vm_compute. discriminate.
Defined.

Example code_nonzero_example :
  returned (Part000._makeAPICall bare_client
              (answering (fetched 200 (Some "text/html") "code=1&message=failed" None))
              "status" None None)
  = Rejected (Part000.PaymentError_new (VStr "failed") (VStr "1"))
  ∧ err_get (Part000.PaymentError_new (VStr "failed") (VStr "1")) "message" = VStr "failed".
Proof. by split. Qed.

Example code_absent_example :
  returned (Part000._makeAPICall bare_client
              (answering (fetched 200 (Some "text/html") "foo=bar" None))
              "status" None None)
  = Rejected (Part000.PaymentError_new VUndefined VUndefined).
Proof. reflexivity. Qed.

(** * Operations (C9, C10) *)

Lemma useTest_not_nullish (o : obj) (env : gmap string string) :
  Part000.useTest (Part000.config (Part000.constructor o env)) ≠ VUndefined
  ∧ Part000.useTest (Part000.config (Part000.constructor o env)) ≠ VNull.
Proof. apply or_js_false_not_nullish. Qed.

(** On a client built by the constructor, [refund] with an object for
    [params] does make its call. *)
Lemma refund_returns_call (cfg : obj) (env : gmap string string)
    (fetch : request → promise response) (transactionId : value)
    (params : loc) (h : heap) (o : obj) :
  h !! params = Some o →
  ∃ c, (Part000.refund (Part000.constructor cfg env) fetch transactionId params h).2
       = Normal c.
Proof.
  intros Hp. unfold Part000.refund. rewrite Hp. cbn [snd].
  destruct (useTest_not_nullish cfg env) as [Hu Hn].
  rewrite (toString_total _ Hu Hn), form_value_toString. by eexists.
Qed.

(** Without an object for [params] nothing is sent and the heap is as it
    was. *)
Lemma refund_without_params (this : Part000.client) (fetch : request → promise response)
    (transactionId : value) (params : loc) (h : heap) :
  h !! params = None →
  ∃ e, Part000.refund this fetch transactionId params h = (h, Throw e).
Proof. intros Hp. unfold Part000.refund. rewrite Hp. by eexists. Qed.

(** [create] leaves its argument alone and lets its entries win. *)
Lemma create_fields (this : Part000.client) (fetch : request → promise response)
    (params : obj) (k : string) (v : value) :
  params !! k = Some v →
  ∃ body, req_body (sent (Part000.create this fetch (Some params))) = Some body
          ∧ (k, VStr (Part000.form_value v)) ∈ body.
Proof.
  intros Hk. eexists. split; [reflexivity|].
  apply form_data_field. unfold spread2. by apply lookup_union_Some_l.
Qed.

(** C9: [refund(transactionId, params)] writes to the object the caller
    passed: after the call this object is the one before it without
    [amount] (its other entries, and every other object, are as they were),
    and the fields of the request are merged from the object as it is after
    the deletion: the caller's other entries win, and [amount] is the
    string made of the amount read before the deletion. *)
Theorem refund_deletes_amount_of_params (this : Part000.client)
    (fetch : request → promise response) (transactionId : value)
    (params : loc) (h : heap) (o : obj) :
  h !! params = Some o →
  let r := Part000.refund this fetch transactionId params h in
  r.1 !! params = Some (delete "amount" o)
  ∧ (∀ o', r.1 !! params = Some o' →
           o' !! "amount" = None ∧ ∀ k, k ≠ "amount" → o' !! k = o !! k)
  ∧ (∀ q, q ≠ params → r.1 !! q = h !! q)
  ∧ (∀ c, r.2 = Normal c →
          ∃ fields, req_body (sent c) = Some (Part000.form_data fields)
                    ∧ fields !! "amount"
                      = Some (VStr (Part000.form_value (obj_get o "amount")))
                    ∧ ∀ k v, k ≠ "amount" → o !! k = Some v → fields !! k = Some v).
Proof.
  intros Hp r. subst r. unfold Part000.refund. rewrite Hp. cbn [fst snd].
  split; [by rewrite lookup_insert_eq|].
  split.
  { intros o'. rewrite lookup_insert_eq. intros [= <-].
    split; [by rewrite lookup_delete_eq|].
    intros k Hk. by rewrite lookup_delete_ne. }
  split; [intros q Hq; by rewrite lookup_insert_ne|].
  intros c. rewrite lookup_insert_eq, form_value_toString. simpl.
  destruct (toString (Part000.useTest (Part000.config this))) as [test|e]; simpl; [|done].
  intros [= <-]. eexists. split; [reflexivity|].
  unfold spread2. split.
  - rewrite lookup_union_r by (by rewrite lookup_delete_eq). done.
  - intros k v Hk Hv. apply lookup_union_Some_l. by rewrite lookup_delete_ne.
Qed.

Lemma refund_deletes_amount_of_params_witness :
  let h : heap := {[ 1%positive := {[ "amount" := VNum 5; "refId" := VStr "r" ]} ]} in
  let r := Part000.refund bare_client (answering (fetched 200 None "" None))
             (VStr "T1") 1%positive h in
  r.1 !! 1%positive = Some (delete "amount" {[ "amount" := VNum 5; "refId" := VStr "r" ]})
  ∧ (∀ o', r.1 !! 1%positive = Some o' →
           o' !! "amount" = None
           ∧ ∀ k, k ≠ "amount" →
                  o' !! k = ({[ "amount" := VNum 5; "refId" := VStr "r" ]} : obj) !! k)
  ∧ (∀ q, q ≠ 1%positive → r.1 !! q = h !! q)
  ∧ (∀ c, r.2 = Normal c →
          ∃ fields, req_body (sent c) = Some (Part000.form_data fields)
                    ∧ fields !! "amount"
                      = Some (VStr (Part000.form_value
                                      (obj_get {[ "amount" := VNum 5; "refId" := VStr "r" ]}
                                               "amount")))
                    ∧ ∀ k v, k ≠ "amount" →
                             ({[ "amount" := VNum 5; "refId" := VStr "r" ]} : obj) !! k = Some v →
                             fields !! k = Some v).
Proof.
  intros h.
  apply (refund_deletes_amount_of_params bare_client (answering (fetched 200 None "" None))
           (VStr "T1") 1%positive h {[ "amount" := VNum 5; "refId" := VStr "r" ]}).
  reflexivity.
Defined.

Example refund_example :
  let h : heap := {[ 1%positive := {[ "amount" := VNum 5; "refId" := VStr "r" ]} ]} in
  let r := Part000.refund bare_client (answering (fetched 200 None "" None))
             (VStr "T1") 1%positive h in
  r.1 = {[ 1%positive := {[ "refId" := VStr "r" ]} ]}
  ∧ ∃ c body, r.2 = Normal c ∧ req_body (sent c) = Some body
              ∧ ("amount", VStr "5") ∈ body ∧ ("refId", VStr "r") ∈ body.
Proof.
  split; [by vm_compute|].
  eexists _, _. split; [reflexivity|]. split; [reflexivity|].
  split.
  - apply (form_data_field _ "amount" (VStr "5")). by vm_compute.
  - apply (form_data_field _ "refId" (VStr "r")). by vm_compute.
Qed.

Lemma request_url (this : Part000.client) (fetch : request → promise response)
    (path : string) (data : option obj) (method : option string) :
  req_url (sent (Part000._makeAPICall this fetch path data method))
  = Part000.gateUrl (Part000.config this) +:+ "/" +:+ path.
Proof. by destruct data. Qed.

(** C10: [status(transactionId)] of the older client sends its request to
    the relative path [methods], the URL of [methods()]; in the current
    client it sends it to the relative path [status]; so the two differ. *)
Theorem status_relative_path (older : Index.client) (current : Part000.client)
    (fetch : request → promise response) (transactionId : value) :
  relative_path (Index.gateUrl (Index.config older))
                (req_url (sent (Index.status older fetch transactionId)))
  = Some "methods"
  ∧ req_url (sent (Index.status older fetch transactionId))
    = req_url (sent (Index.methods older fetch))
  ∧ relative_path (Part000.gateUrl (Part000.config current))
                  (req_url (sent (Part000.status current fetch transactionId)))
    = Some "status"
  ∧ relative_path (Index.gateUrl (Index.config older))
                  (req_url (sent (Index.status older fetch transactionId)))
    ≠ relative_path (Part000.gateUrl (Part000.config current))
                    (req_url (sent (Part000.status current fetch transactionId))).
Proof.
  assert (Ho : relative_path (Index.gateUrl (Index.config older))
                 (req_url (sent (Index.status older fetch transactionId))) = Some "methods")
    by apply relative_path_joined.
  assert (Hc : relative_path (Part000.gateUrl (Part000.config current))
                 (req_url (sent (Part000.status current fetch transactionId))) = Some "status")
    by apply relative_path_joined.
  split; [done|]. split; [done|]. split; [done|].
  rewrite Ho, Hc. discriminate.
Qed.

(** * Further properties of the dispatcher *)

Section exchange.
Context (this : Part000.client) (path : string) (data : option obj) (method : option string).
Context (fetch : request → promise response).

(** X1: when the transport fails, [fetch] rejecting with an error, the call
    rejects with that very error: the response callback does not run and
    nothing is remapped to an [APIError]. *)
Theorem transport_failure_surfaces_unchanged (e : js_error) :
  fetch (sent (Part000._makeAPICall this fetch path data method)) = Rejected e →
  returned (Part000._makeAPICall this fetch path data method) = Rejected e.
Proof. intros Hf. rewrite returned_then, Hf. apply promise_then_rejected. Qed.

Context (res : response).
Hypothesis fetch_answers :
  fetch (sent (Part000._makeAPICall this fetch path data method)) = Resolved res.

(** X2: a response with a status in 200-299 that declares
    [application/json] and whose parsed body has a truthy [error] member
    makes the call reject with an [APIError] whose message is
    [JSON.stringify] of that member. *)
Theorem json_error_rejects_APIError (ct : string) (j err : json) :
  res_ok res = true →
  res_content_type res = Some ct →
  includes ct "application/json" = true →
  res_json res = Normal (Resolved j) →
  json_get j "error" = Normal (Some err) →
  json_truthy err = true →
  ∃ e, returned (Part000._makeAPICall this fetch path data method) = Rejected e
       ∧ err_class e = APIErrorC
       ∧ err_get e "name" = VStr "APIError"
       ∧ err_get e "message" = VStr (JSON_stringify err).
Proof.
  intros Hok Hct Hj Hr He Ht. rewrite returned_then, fetch_answers. simpl.
  unfold Part000.on_response. rewrite Hct, Hok, Hj, Hr. simpl.
  unfold Part000.on_json. rewrite He. simpl. rewrite Ht.
  eexists. by repeat split.
Qed.

(** X3: a response with a status in 200-299 that declares
    [application/json] and whose parsed body has no [error] member, or a
    falsy one, makes the call resolve with the parsed value as it is:
    nothing is stripped, a [code] or [message] member stays. *)
Theorem json_without_error_resolves_whole (ct : string) (j : json) (member : option json) :
  res_ok res = true →
  res_content_type res = Some ct →
  includes ct "application/json" = true →
  res_json res = Normal (Resolved j) →
  json_get j "error" = Normal member →
  (∀ err, member = Some err → json_truthy err = false) →
  returned (Part000._makeAPICall this fetch path data method) = Resolved (RJson j).
Proof.
  intros Hok Hct Hj Hr He Hf. rewrite returned_then, fetch_answers. simpl.
  unfold Part000.on_response. rewrite Hct, Hok, Hj, Hr. simpl.
  unfold Part000.on_json. rewrite He. simpl.
  destruct member as [err|]; [|done]. by rewrite (Hf err).
Qed.

(** X4: a response with a status in 200-299 that declares
    [application/json] and whose body is the JSON value null makes the call
    reject with the [TypeError] of reading [error] off null, not with an
    [APIError]. *)
Theorem json_null_rejects_TypeError (ct : string) :
  res_ok res = true →
  res_content_type res = Some ct →
  includes ct "application/json" = true →
  res_json res = Normal (Resolved JNull) →
  returned (Part000._makeAPICall this fetch path data method)
  = Rejected (TypeError_new "Cannot read properties of null (reading 'error')")
  ∧ ¬ is_rejected_with (returned (Part000._makeAPICall this fetch path data method))
                       APIErrorC.
Proof.
  intros Hok Hct Hj Hr. rewrite returned_then, fetch_answers. simpl.
  unfold Part000.on_response. rewrite Hct, Hok, Hj, Hr. simpl.
  split; [done|]. discriminate.
Qed.

(** X5: a response with a status in 200-299 whose content type contains
    none of [application/json], [form-urlencoded] and [text/html] makes the
    call resolve with the body text, unchanged and unparsed. *)
Theorem other_content_type_resolves_text (ct payload : string) :
  res_ok res = true →
  res_content_type res = Some ct →
  includes ct "application/json" = false →
  includes ct "form-urlencoded" = false →
  includes ct "text/html" = false →
  res_text res = Normal (Resolved payload) →
  returned (Part000._makeAPICall this fetch path data method) = Resolved (RText payload).
Proof.
  intros Hok Hct Hj Hu Hh Ht. rewrite returned_then, fetch_answers. simpl.
  rewrite (on_response_text res ct payload) by done.
  unfold Part000.on_text. by rewrite Hu, Hh.
Qed.

(** X6: outside 200-299, with a [Content-Type] header of any value, the body
    is never parsed: the call rejects with an [APIError] named [APIError]
    whose message is the body text as it came, also when the header says
    JSON and the body is a JSON document. *)
Theorem error_status_carries_raw_body (ct body : string) :
  res_ok res = false →
  res_content_type res = Some ct →
  res_text res = Normal (Resolved body) →
  ∃ e, returned (Part000._makeAPICall this fetch path data method) = Rejected e
       ∧ err_class e = APIErrorC
       ∧ err_get e "name" = VStr "APIError"
       ∧ err_get e "message" = VStr body.
Proof.
  intros Hok Hct Ht. rewrite returned_then, fetch_answers. simpl.
  rewrite (on_response_not_ok res ct body) by done.
  eexists. by repeat split.
Qed.

(** X7: when the body cannot be read, the promise of [res.text()]
    rejecting, the call rejects with that error as it is, on the error path
    and on the success path alike. *)
Theorem unreadable_body_surfaces_unchanged (ct : string) (e : js_error) :
  res_content_type res = Some ct →
  res_text res = Normal (Rejected e) →
  res_json res = Normal (Rejected e) →
  returned (Part000._makeAPICall this fetch path data method) = Rejected e.
Proof.
  intros Hct Ht Hj. rewrite returned_then, fetch_answers. simpl.
  unfold Part000.on_response. rewrite Hct, Ht, Hj.
  by destruct (res_ok res), (includes ct "application/json").
Qed.

(** X8: for a URL-encoded or HTML response with a code other than [0], the
    [PaymentError] of the rejection is named [PaymentError] and its message
    is the [message] field of the body, or the empty string when the body
    has none. *)
Theorem payment_error_message (ct payload : string) :
  res_ok res = true →
  res_content_type res = Some ct →
  includes ct "application/json" = false →
  includes ct "form-urlencoded" || includes ct "text/html" = true →
  res_text res = Normal (Resolved payload) →
  collect_params (URLSearchParams payload) !! "code" ≠ Some "0" →
  ∃ e, returned (Part000._makeAPICall this fetch path data method) = Rejected e
       ∧ err_class e = PaymentErrorC
       ∧ err_get e "name" = VStr "PaymentError"
       ∧ err_get e "message"
         = VStr (default "" (collect_params (URLSearchParams payload) !! "message")).
Proof.
  intros Hok Hct Hj Hu Ht Hc.
  rewrite (returned_on_text this path data method fetch res fetch_answers ct payload)
    by done.
  destruct (bool_decide _) eqn:Hb; [by apply code_is_zero in Hb|].
  unfold str_get at 1.
  destruct (collect_params (URLSearchParams payload) !! "message");
    eexists; by repeat split.
Qed.

End exchange.

(** X9: whatever the transport answers, a field mapping that a call
    resolves with has no [code] and no [message] entry, and each of its
    entries is a name-value pair of the body. *)
Theorem resolved_fields_stripped (this : Part000.client) (fetch : request → promise response)
    (path : string) (data : option obj) (method : option string) (out : gmap string string) :
  returned (Part000._makeAPICall this fetch path data method) = Resolved (RFields out) →
  out !! "code" = None ∧ out !! "message" = None
  ∧ ∃ res payload,
      fetch (sent (Part000._makeAPICall this fetch path data method)) = Resolved res
      ∧ res_text res = Normal (Resolved payload)
      ∧ ∀ k v, out !! k = Some v → (k, v) ∈ URLSearchParams payload.
Proof.
  rewrite returned_then.
  destruct (fetch _) as [res|e] eqn:Hf; simpl; [|done].
  unfold Part000.on_response.
  destruct (res_content_type res) as [ct|]; [|done].
  destruct (res_ok res); simpl;
    [|destruct (res_text res) as [[body|e]|e]; simpl; done].
  destruct (includes ct "application/json").
  { destruct (res_json res) as [[j|e]|e]; simpl; try done.
    unfold Part000.on_json.
    destruct (json_get j "error") as [[err|]|e]; simpl; try done.
    by destruct (json_truthy err). }
  destruct (res_text res) as [[payload|e]|e] eqn:Ht; simpl; try done.
  unfold Part000.on_text.
  destruct (includes ct "form-urlencoded" || includes ct "text/html"); [|done].
  destruct (bool_decide _); simpl; [|done].
  intros [= <-].
  split; [by rewrite lookup_delete_ne, lookup_delete_eq|].
  split; [by rewrite lookup_delete_eq|].
  exists res, payload. split; [done|]. split; [done|].
  intros k v Hk.
  apply lookup_delete_Some in Hk as [_ Hk]. apply lookup_delete_Some in Hk as [_ Hk].
  by apply collect_params_sound in Hk as [_ ?].
Qed.

(** X10: with a [Content-Type] header, a body that can be read and, where
    the JSON branch is taken, a body that is JSON and not null, a call
    settles in one of three ways: it resolves, or it rejects with an
    [APIError], or it rejects with a [PaymentError]. *)
Theorem wellformed_response_two_error_kinds (this : Part000.client)
    (path : string) (data : option obj) (method : option string)
    (status : Z) (ct body : string) (parsed : option json) :
  (includes ct "application/json" = true → ∃ j, parsed = Some j ∧ j ≠ JNull) →
  match returned (Part000._makeAPICall this (answering (fetched status (Some ct) body parsed))
                    path data method) with
  | Resolved _ => True
  | Rejected e => err_class e = APIErrorC ∨ err_class e = PaymentErrorC
  end.
Proof.
  intros Hjson. rewrite returned_answering.
  unfold Part000.on_response, fetched; simpl.
  destruct (res_ok _); simpl; [|by left].
  destruct (includes ct "application/json").
  - destruct (Hjson eq_refl) as (j & -> & Hj). simpl.
    unfold Part000.on_json.
    destruct j as [|b|n|s|items|members]; simpl; try done.
    destruct (members_get members "error") as [err|]; [|done].
    destruct (json_truthy err); [by left|done].
  - simpl. unfold Part000.on_text.
    destruct (includes ct "form-urlencoded" || includes ct "text/html"); [|done].
    destruct (bool_decide _); simpl; [done|by right].
Qed.

Lemma transport_failure_surfaces_unchanged_witness :
  returned (Part000._makeAPICall bare_client
              (λ _, Rejected (FetchError_new "request failed" "system"))
              "status" None None)
  = Rejected (FetchError_new "request failed" "system").
Proof.
  apply (transport_failure_surfaces_unchanged bare_client "status" None None
           (λ _, Rejected (FetchError_new "request failed" "system"))).
  reflexivity.
Defined.

Lemma json_error_rejects_APIError_witness :
  ∃ e, returned (Part000._makeAPICall bare_client
                   (answering (fetched 200 (Some "application/json") "ignored"
                                       (Some (JObj [("error", JObj [("code", JNum 7)])]))))
                   "status" None None)
       = Rejected e
       ∧ err_class e = APIErrorC
       ∧ err_get e "name" = VStr "APIError"
       ∧ err_get e "message" = VStr (JSON_stringify (JObj [("code", JNum 7)])).
Proof.
  apply (json_error_rejects_APIError bare_client "status" None None
           (answering (fetched 200 (Some "application/json") "ignored"
                               (Some (JObj [("error", JObj [("code", JNum 7)])]))))
           (fetched 200 (Some "application/json") "ignored"
                    (Some (JObj [("error", JObj [("code", JNum 7)])])))
           eq_refl "application/json"
           (JObj [("error", JObj [("code", JNum 7)])]) (JObj [("code", JNum 7)]));
    reflexivity.
Defined.

Lemma json_without_error_resolves_whole_witness :
  returned (Part000._makeAPICall bare_client
              (answering (fetched 200 (Some "application/json") "ignored"
                                  (Some (JObj [("code", JNum 1); ("message", JStr "kept");
                                               ("error", JNum 0)]))))
              "status" None None)
  = Resolved (RJson (JObj [("code", JNum 1); ("message", JStr "kept"); ("error", JNum 0)])).
Proof.
  apply (json_without_error_resolves_whole bare_client "status" None None
           (answering (fetched 200 (Some "application/json") "ignored"
                               (Some (JObj [("code", JNum 1); ("message", JStr "kept");
                                            ("error", JNum 0)]))))
           (fetched 200 (Some "application/json") "ignored"
                    (Some (JObj [("code", JNum 1); ("message", JStr "kept");
                                 ("error", JNum 0)])))
           eq_refl "application/json"
           (JObj [("code", JNum 1); ("message", JStr "kept"); ("error", JNum 0)])
           (Some (JNum 0)));
    try reflexivity.
  intros err [= <-]. reflexivity.
Defined.

Lemma json_null_rejects_TypeError_witness :
  returned (Part000._makeAPICall bare_client
              (answering (fetched 200 (Some "application/json") "null" (Some JNull)))
              "status" None None)
  = Rejected (TypeError_new "Cannot read properties of null (reading 'error')")
  ∧ ¬ is_rejected_with
        (returned (Part000._makeAPICall bare_client
                     (answering (fetched 200 (Some "application/json") "null" (Some JNull)))
                     "status" None None))
        APIErrorC.
Proof.
  apply (json_null_rejects_TypeError bare_client "status" None None
           (answering (fetched 200 (Some "application/json") "null" (Some JNull)))
           (fetched 200 (Some "application/json") "null" (Some JNull))
           eq_refl "application/json");
    reflexivity.
Defined.

Lemma other_content_type_resolves_text_witness :
  returned (Part000._makeAPICall bare_client
              (answering (fetched 200 (Some "text/plain") "code=0&message=ok" None))
              "status" None None)
  = Resolved (RText "code=0&message=ok").
Proof.
  apply (other_content_type_resolves_text bare_client "status" None None
           (answering (fetched 200 (Some "text/plain") "code=0&message=ok" None))
           (fetched 200 (Some "text/plain") "code=0&message=ok" None)
           eq_refl "text/plain" "code=0&message=ok");
    reflexivity.
Defined.

Lemma error_status_carries_raw_body_witness :
  ∃ e, returned (Part000._makeAPICall bare_client
                   (answering (fetched 404 (Some "application/json") "{}" (Some (JObj []))))
                   "status" None None)
       = Rejected e
       ∧ err_class e = APIErrorC
       ∧ err_get e "name" = VStr "APIError"
       ∧ err_get e "message" = VStr "{}".
Proof.
  apply (error_status_carries_raw_body bare_client "status" None None
           (answering (fetched 404 (Some "application/json") "{}" (Some (JObj []))))
           (fetched 404 (Some "application/json") "{}" (Some (JObj [])))
           eq_refl "application/json" "{}");
    reflexivity.
Defined.

Lemma unreadable_body_surfaces_unchanged_witness :
  returned (Part000._makeAPICall bare_client
              (answering {| res_status := 200;
                            res_content_type := Some "text/html";
                            res_text := Normal (Rejected (FetchError_new "aborted" "system"));
                            res_json := Normal (Rejected (FetchError_new "aborted" "system")) |})
              "status" None None)
  = Rejected (FetchError_new "aborted" "system").
Proof.
  apply (unreadable_body_surfaces_unchanged bare_client "status" None None
           (answering {| res_status := 200;
                         res_content_type := Some "text/html";
                         res_text := Normal (Rejected (FetchError_new "aborted" "system"));
                         res_json := Normal (Rejected (FetchError_new "aborted" "system")) |})
           {| res_status := 200;
              res_content_type := Some "text/html";
              res_text := Normal (Rejected (FetchError_new "aborted" "system"));
              res_json := Normal (Rejected (FetchError_new "aborted" "system")) |}
           eq_refl "text/html" (FetchError_new "aborted" "system"));
    reflexivity.
Defined.

Lemma payment_error_message_witness :
  ∃ e, returned (Part000._makeAPICall bare_client
                   (answering (fetched 200 (Some "text/html") "code=1400&foo=bar" None))
                   "status" None None)
       = Rejected e
       ∧ err_class e = PaymentErrorC
       ∧ err_get e "name" = VStr "PaymentError"
       ∧ err_get e "message"
         = VStr (default "" (collect_params (URLSearchParams "code=1400&foo=bar") !! "message")).
Proof.
  apply (payment_error_message bare_client "status" None None
           (answering (fetched 200 (Some "text/html") "code=1400&foo=bar" None))
           (fetched 200 (Some "text/html") "code=1400&foo=bar" None)
           eq_refl "text/html" "code=1400&foo=bar");
    try reflexivity.
  vm_compute. discriminate.
Defined.

Lemma resolved_fields_stripped_witness :
  ({[ "transId" := "AB12"; "redirect" := "https://x.test/pay?id=1" ]} : gmap string string)
    !! "code" = None
  ∧ ({[ "transId" := "AB12"; "redirect" := "https://x.test/pay?id=1" ]} : gmap string string)
      !! "message" = None
  ∧ ∃ res payload,
      answering (fetched 200 (Some "application/x-www-form-urlencoded")
                   "code=0&message=OK&transId=AB12&redirect=https%3A%2F%2Fx.test%2Fpay%3Fid%3D1"
                   None)
        (sent (Part000._makeAPICall bare_client
                 (answering (fetched 200 (Some "application/x-www-form-urlencoded")
                   "code=0&message=OK&transId=AB12&redirect=https%3A%2F%2Fx.test%2Fpay%3Fid%3D1"
                   None))
                 "create" None None))
      = Resolved res
      ∧ res_text res = Normal (Resolved payload)
      ∧ ∀ k v,
          ({[ "transId" := "AB12"; "redirect" := "https://x.test/pay?id=1" ]}
             : gmap string string) !! k = Some v →
          (k, v) ∈ URLSearchParams payload.
Proof.
  apply (resolved_fields_stripped bare_client
           (answering (fetched 200 (Some "application/x-www-form-urlencoded")
              "code=0&message=OK&transId=AB12&redirect=https%3A%2F%2Fx.test%2Fpay%3Fid%3D1"
              None))
           "create" None None).
  vm_compute. reflexivity.
Defined.

Lemma wellformed_response_two_error_kinds_witness :
  match returned (Part000._makeAPICall bare_client
                    (answering (fetched 200 (Some "application/json") "ignored"
                                        (Some (JObj [("error", JStr "X")]))))
                    "status" None None) with
  | Resolved _ => True
  | Rejected e => err_class e = APIErrorC ∨ err_class e = PaymentErrorC
  end.
Proof.
  apply (wellformed_response_two_error_kinds bare_client "status" None None
           200 "application/json" "ignored" (Some (JObj [("error", JStr "X")]))).
  intros _. eexists. split; [reflexivity|discriminate].
Defined.

(** * Further properties of the requests *)

Lemma form_value_string (s : string) : Part000.form_value (VStr s) = s.
Proof. unfold Part000.form_value, or_js; simpl. by destruct s. Qed.

Lemma form_data_string_field (data : obj) (k s : string) :
  data !! k = Some (VStr s) → (k, VStr s) ∈ Part000.form_data data.
Proof. intros H. apply form_data_field in H. by rewrite form_value_string in H. Qed.

(** X11: the form body holds [type=json] and, for each key of the data, one
    field with the converted value, and nothing else: no entry is dropped,
    none is added, and there is one field more than the data has keys. *)
Theorem form_fields_exact (data : obj) :
  (∀ k w, (k, w) ∈ Part000.form_data data
          ↔ (k = "type" ∧ w = VStr "json")
            ∨ ∃ v, data !! k = Some v ∧ w = VStr (Part000.form_value v))
  ∧ length (Part000.form_data data) = S (size data).
Proof.
  split.
  - intros k w. split; [apply form_data_only|].
    intros [[-> ->]|(v & Hv & ->)]; [by left|by apply form_data_field].
  - unfold Part000.form_data. cbn [length]. by rewrite length_fmap, length_map_to_list.
Qed.

(** X12: a [type] entry of the data does not replace the [type=json] field:
    both are sent, [type=json] first. *)
Theorem type_entry_sent_beside_json (data : obj) (v : value) :
  data !! "type" = Some v →
  head (Part000.form_data data) = Some ("type", VStr "json")
  ∧ ("type", VStr (Part000.form_value v)) ∈ tail (Part000.form_data data).
Proof.
  intros Hv. split; [done|].
  unfold Part000.form_data. cbn [tail].
  apply list_elem_of_fmap. exists ("type", v). split; [done|].
  by apply elem_of_map_to_list.
Qed.

Lemma type_entry_sent_beside_json_witness :
  head (Part000.form_data {[ "type" := VStr "xml" ]}) = Some ("type", VStr "json")
  ∧ ("type", VStr (Part000.form_value (VStr "xml")))
      ∈ tail (Part000.form_data {[ "type" := VStr "xml" ]}).
Proof.
  apply (type_entry_sent_beside_json {[ "type" := VStr "xml" ]} (VStr "xml")).
  reflexivity.
Defined.

(** Every call with data is a request to [gateUrl/path] that carries a
    form body and asks for JSON, sent with the method given, POST when none
    is; a call without data has neither body nor [accept] header. *)
Lemma request_shape (this : Part000.client) (fetch : request → promise response)
    (path : string) (data : option obj) (method : option string) :
  let r := sent (Part000._makeAPICall this fetch path data method) in
  relative_path (Part000.gateUrl (Part000.config this)) (req_url r) = Some path
  ∧ req_method r = default "POST" method
  ∧ req_body r = Part000.form_data <$> data
  ∧ req_accept r = (λ _, "application/json") <$> data.
Proof.
  intros r. subst r. rewrite request_url, relative_path_joined. by destruct data.
Qed.

(** X13: on a client built by the constructor, the URL of a request is the
    resolved base, [/v], the resolved version, [/] and the path; with no
    options and an empty environment that is
    [https://payments.comgate.cz/v1.0/] and the path. *)
Theorem request_url_of_built_client (o : obj) (env : gmap string string)
    (fetch : request → promise response)
    (path : string) (data : option obj) (method : option string) :
  req_url (sent (Part000._makeAPICall (Part000.constructor o env) fetch path data method))
  = ToString (spec_resolve (obj_get o "gateUrl") (env_get env "GATEWAY_URL")
                           (Some (VStr "https://payments.comgate.cz")))
    +:+ "/v"
    +:+ ToString (spec_resolve (obj_get o "apiVersion") (env_get env "API_VERSION")
                               (Some (VStr "1.0")))
    +:+ "/" +:+ path
  ∧ req_url (sent (Part000._makeAPICall (Part000.constructor ∅ ∅) fetch path data method))
    = "https://payments.comgate.cz/v1.0/" +:+ path.
Proof.
  rewrite !request_url. split; [|done].
  cbn [Part000.constructor Part000.config Part000.gateUrl].
  by rewrite !or_js_chain, !append_assoc.
Qed.

(** X14: the five operations send to the relative paths [methods],
    [create], [cancel], [refund] and [status], each by POST, with a form
    body and asking for JSON. *)
Theorem operations_endpoints (this : Part000.client) (fetch : request → promise response)
    (transactionId : value) (params : option obj) (p : loc) (h : heap) :
  let gate := Part000.gateUrl (Part000.config this) in
  let posts_to (c : call) (name : string) :=
    relative_path gate (req_url (sent c)) = Some name
    ∧ req_method (sent c) = "POST"
    ∧ req_accept (sent c) = Some "application/json"
    ∧ head <$> req_body (sent c) = Some (Some ("type", VStr "json")) in
  posts_to (Part000.methods this fetch) "methods"
  ∧ posts_to (Part000.create this fetch params) "create"
  ∧ posts_to (Part000.cancel this fetch transactionId) "cancel"
  ∧ posts_to (Part000.status this fetch transactionId) "status"
  ∧ ∀ c, (Part000.refund this fetch transactionId p h).2 = Normal c → posts_to c "refund".
Proof.
  intros gate posts_to. subst posts_to gate. cbv beta.
  do 4 (split; [by repeat split; try apply relative_path_joined|]).
  intros c. unfold Part000.refund.
  destruct (h !! p) as [o|]; cbn [snd]; [|done].
  rewrite form_value_toString.
  destruct (toString (Part000.useTest (Part000.config this))) as [t|e]; simpl; [|done].
  intros [= <-]. by repeat split; try apply relative_path_joined.
Qed.

(** X15: in [create], an entry of the caller's [params] is sent as it is
    given, also under a name the configuration fills ([merchant], [secret],
    [method], ...); a name the caller leaves out is filled: [method] with
    [ALL], [merchant] and [secret] from the configuration. *)
Theorem create_params_win (this : Part000.client) (fetch : request → promise response)
    (params : option obj) :
  ∃ body, req_body (sent (Part000.create this fetch params)) = Some body
    ∧ (∀ k v, default ∅ params !! k = Some v → (k, VStr (Part000.form_value v)) ∈ body)
    ∧ (default ∅ params !! "method" = None → ("method", VStr "ALL") ∈ body)
    ∧ (default ∅ params !! "merchant" = None →
       ("merchant", VStr (Part000.form_value (Part000.merchantId (Part000.config this)))) ∈ body)
    ∧ (default ∅ params !! "secret" = None →
       ("secret", VStr (Part000.form_value (Part000.secret (Part000.config this)))) ∈ body)
    ∧ (∀ k w, (k, w) ∈ body → default ∅ params !! k = None →
              k ∈ ["type"; "merchant"; "test"; "country"; "curr"; "secret"; "lang"; "method"]).
Proof.
  eexists. split; [reflexivity|].
  split; [|split; [|split; [|split]]].
  - intros k v Hk. apply form_data_field. unfold spread2. by apply lookup_union_Some_l.
  - intros Hn. apply (form_data_field _ "method" (VStr "ALL")).
    unfold spread2. by rewrite lookup_union_r.
  - intros Hn. apply form_data_field. unfold spread2. by rewrite lookup_union_r.
  - intros Hn. apply form_data_field. unfold spread2. by rewrite lookup_union_r.
  - intros k w Hin Hn. apply form_data_only in Hin as [[-> _]|(v & Hv & _)].
    { apply list_elem_of_here. }
    unfold spread2 in Hv. rewrite lookup_union_r in Hv by done.
    unfold obj_lit in Hv. apply elem_of_list_to_map_2 in Hv.
    apply (list_elem_of_fmap_2 fst) in Hv. simpl in Hv.
    by apply list_elem_of_further.
Qed.

(** X16: on a client built by the constructor, [refund] with an object for
    [params] never throws: it sends its request, and unless the caller's
    object has a [test] entry, the [test] field is the string of
    [useTest], so the text false where [useTest] is false. *)
Theorem refund_on_built_client_sends (cfg : obj) (env : gmap string string)
    (fetch : request → promise response) (transactionId : value)
    (params : loc) (h : heap) (o : obj) :
  h !! params = Some o →
  ∃ c body,
    (Part000.refund (Part000.constructor cfg env) fetch transactionId params h).2 = Normal c
    ∧ req_body (sent c) = Some body
    ∧ (o !! "test" = None →
       ("test", VStr (ToString (Part000.useTest
                                  (Part000.config (Part000.constructor cfg env))))) ∈ body).
Proof.
  intros Hp. unfold Part000.refund. rewrite Hp. cbn [snd].
  destruct (useTest_not_nullish cfg env) as [Hu Hn].
  rewrite (toString_total _ Hu Hn), form_value_toString.
  eexists _, _. split; [reflexivity|]. split; [reflexivity|].
  intros Ht. rewrite lookup_insert_eq.
  change (default ∅ (Some (delete "amount" o))) with (delete "amount" o).
  apply form_data_string_field. unfold spread2.
  rewrite lookup_union_r by (by rewrite lookup_delete_ne). done.
Qed.

Lemma refund_on_built_client_sends_witness :
  ∃ c body,
    (Part000.refund (Part000.constructor ∅ ∅) (answering (fetched 200 None "" None))
       (VStr "T1") 1%positive {[ 1%positive := {[ "amount" := VNum 5 ]} ]}).2 = Normal c
    ∧ req_body (sent c) = Some body
    ∧ (({[ "amount" := VNum 5 ]} : obj) !! "test" = None →
       ("test", VStr (ToString (Part000.useTest (Part000.config (Part000.constructor ∅ ∅)))))
         ∈ body).
Proof.
  apply (refund_on_built_client_sends ∅ ∅ (answering (fetched 200 None "" None))
           (VStr "T1") 1%positive {[ 1%positive := {[ "amount" := VNum 5 ]} ]}
           {[ "amount" := VNum 5 ]}).
  reflexivity.
Defined.

(** X17: a client built with neither a [merchantId] nor a [secret], in
    options or environment, still sends its requests: [methods], [cancel]
    and [status] carry the fields [merchant] and [secret] with the empty
    string. *)
Theorem absent_credentials_sent_empty (o : obj) (env : gmap string string)
    (fetch : request → promise response) (transactionId : value) :
  truthy (obj_get o "merchantId") = false → env !! "MERCHANT_ID" = None →
  truthy (obj_get o "secret") = false → env !! "MERCHANT_SECRET" = None →
  let this := Part000.constructor o env in
  let sends_empty (c : call) :=
    ∃ body, req_body (sent c) = Some body
            ∧ ("merchant", VStr "") ∈ body ∧ ("secret", VStr "") ∈ body in
  sends_empty (Part000.methods this fetch)
  ∧ sends_empty (Part000.cancel this fetch transactionId)
  ∧ sends_empty (Part000.status this fetch transactionId).
Proof.
  intros Hm Hme Hs Hse this sends_empty. subst sends_empty. cbv beta.
  assert (Part000.merchantId (Part000.config this) = VUndefined) as Hmid.
  { subst this. cbn. unfold or_js, env_get. by rewrite Hm, Hme. }
  assert (Part000.secret (Part000.config this) = VUndefined) as Hsec.
  { subst this. cbn. unfold or_js, env_get. by rewrite Hs, Hse. }
  assert (∀ d : obj, d !! "merchant" = Some VUndefined → d !! "secret" = Some VUndefined →
            ("merchant", VStr "") ∈ Part000.form_data d
            ∧ ("secret", VStr "") ∈ Part000.form_data d) as Hfields.
  { intros d H1 H2.
    split; [apply (form_data_field d "merchant" VUndefined H1)
           |apply (form_data_field d "secret" VUndefined H2)]. }
  repeat split.
  all: eexists; split; [reflexivity|];
    apply Hfields; unfold obj_lit; rewrite ?Hmid, ?Hsec; by vm_compute.
Qed.

Lemma absent_credentials_sent_empty_witness :
  (∃ body, req_body (sent (Part000.methods (Part000.constructor ∅ ∅)
                             (answering (fetched 200 None "" None)))) = Some body
           ∧ ("merchant", VStr "") ∈ body ∧ ("secret", VStr "") ∈ body)
  ∧ (∃ body, req_body (sent (Part000.cancel (Part000.constructor ∅ ∅)
                               (answering (fetched 200 None "" None)) (VStr "T1"))) = Some body
             ∧ ("merchant", VStr "") ∈ body ∧ ("secret", VStr "") ∈ body)
  ∧ (∃ body, req_body (sent (Part000.status (Part000.constructor ∅ ∅)
                               (answering (fetched 200 None "" None)) (VStr "T1"))) = Some body
             ∧ ("merchant", VStr "") ∈ body ∧ ("secret", VStr "") ∈ body).
Proof.
  apply (absent_credentials_sent_empty ∅ ∅ (answering (fetched 200 None "" None)) (VStr "T1"));
    reflexivity.
Defined.

(** X18: a [USE_TEST] variable, when no truthy [useTest] option is given,
    becomes [useTest] as the string it is, and every non-empty string is
    truthy, the text false too; [create] then sends it as the [test]
    field. *)
Theorem env_useTest_is_a_string (o : obj) (env : gmap string string) (s : string)
    (fetch : request → promise response) :
  truthy (obj_get o "useTest") = false →
  env !! "USE_TEST" = Some s →
  s ≠ "" →
  Part000.useTest (Part000.config (Part000.constructor o env)) = VStr s
  ∧ truthy (Part000.useTest (Part000.config (Part000.constructor o env))) = true
  ∧ ∃ body, req_body (sent (Part000.create (Part000.constructor o env) fetch None)) = Some body
            ∧ ("test", VStr s) ∈ body.
Proof.
  intros Ho He Hs.
  assert (Part000.useTest (Part000.config (Part000.constructor o env)) = VStr s) as Hu.
  { cbn. unfold or_js, env_get. rewrite Ho, He. simpl. by destruct s. }
  split; [done|]. split; [rewrite Hu; by destruct s|].
  eexists. split; [reflexivity|].
  apply form_data_string_field. unfold spread2.
  change (default ∅ None) with (∅ : obj).
  rewrite lookup_union_r by done. rewrite Hu. by vm_compute.
Qed.

Lemma env_useTest_is_a_string_witness :
  Part000.useTest (Part000.config (Part000.constructor ∅ {[ "USE_TEST" := "false" ]}))
  = VStr "false"
  ∧ truthy (Part000.useTest (Part000.config (Part000.constructor ∅ {[ "USE_TEST" := "false" ]})))
    = true
  ∧ ∃ body,
      req_body (sent (Part000.create (Part000.constructor ∅ {[ "USE_TEST" := "false" ]})
                        (answering (fetched 200 None "" None)) None)) = Some body
      ∧ ("test", VStr "false") ∈ body.
Proof.
  apply (env_useTest_is_a_string ∅ {[ "USE_TEST" := "false" ]} "false"
           (answering (fetched 200 None "" None)));
    [reflexivity|reflexivity|discriminate].
Defined.

(** X19: in a URL-encoded body that repeats [code], the last one decides:
    when the pairs of the body end with a [code] of [0] the call resolves,
    whatever codes came before, and when they end with another code it
    rejects with a [PaymentError]. *)
Theorem last_code_decides (this : Part000.client) (fetch : request → promise response)
    (path : string) (data : option obj) (method : option string)
    (res : response) (ct payload c : string) (pairs : list (string * string)) :
  fetch (sent (Part000._makeAPICall this fetch path data method)) = Resolved res →
  res_ok res = true →
  res_content_type res = Some ct →
  includes ct "application/json" = false →
  includes ct "form-urlencoded" || includes ct "text/html" = true →
  res_text res = Normal (Resolved payload) →
  URLSearchParams payload = (pairs ++ [("code", c)])%list →
  if bool_decide (c = "0")
  then ∃ out, returned (Part000._makeAPICall this fetch path data method)
              = Resolved (RFields out)
  else is_rejected_with (returned (Part000._makeAPICall this fetch path data method))
                        PaymentErrorC.
Proof.
  intros Hf Hok Hct Hj Hu Ht Hp.
  assert (collect_params (URLSearchParams payload) !! "code" = Some c) as Hc
    by (rewrite Hp; by apply collect_params_last).
  rewrite (returned_on_text this path data method fetch res Hf ct payload Hok Hct Hj Hu Ht).
  case_bool_decide as Hz.
  - subst c. apply code_is_zero in Hc. rewrite Hc. by eexists.
  - destruct (bool_decide (str_get _ "code" = _)) eqn:Hb; [|done].
    apply code_is_zero in Hb. congruence.
Qed.

Lemma last_code_decides_witness :
  if bool_decide ("0" = "0")
  then ∃ out, returned (Part000._makeAPICall bare_client
                          (answering (fetched 200 (Some "text/html")
                                              "code=1&message=no&code=0" None))
                          "status" None None)
              = Resolved (RFields out)
  else is_rejected_with
         (returned (Part000._makeAPICall bare_client
                      (answering (fetched 200 (Some "text/html")
                                          "code=1&message=no&code=0" None))
                      "status" None None))
         PaymentErrorC.
Proof.
  apply (last_code_decides bare_client
           (answering (fetched 200 (Some "text/html") "code=1&message=no&code=0" None))
           "status" None None
           (fetched 200 (Some "text/html") "code=1&message=no&code=0" None)
           "text/html" "code=1&message=no&code=0" "0"
           [("code", "1"); ("message", "no")]);
    reflexivity.
Defined.

(** * Further properties of the older client *)

(** X20: the older constructor succeeds exactly when the options carry an
    [apiVersion] that is neither undefined nor null; an [API_VERSION]
    variable does not help. *)
Theorem Index_constructor_succeeds_iff (h : heap) (o : obj) (env : gmap string string) :
  (∃ c, Index.constructor h o env = Normal c)
  ↔ obj_get o "apiVersion" ≠ VUndefined ∧ obj_get o "apiVersion" ≠ VNull.
Proof.
  pose proof (Index_constructor_throws h o env) as Ht.
  split.
  - intros [c Hc]. split; intros Hv; destruct Ht as [_ Ht].
    + destruct Ht as [e He]; [by left|]. congruence.
    + destruct Ht as [e He]; [by right|]. congruence.
  - intros [Hu Hn]. destruct (Index.constructor h o env) as [c|e] eqn:Hc; [by eexists|].
    destruct Ht as [Ht _]. destruct Ht as [?|?]; [by eexists|done|done].
Qed.

(** X21: in the older client the options [currency], [language] and
    [country] are not read: with an [apiVersion] option that is a string, a
    number, a boolean or a function, the three fields are [CZK], [cs] and
    [CZ] whatever the options say. *)
Theorem Index_locale_options_ignored (h : heap) (o : obj) (env : gmap string string) :
  obj_get o "apiVersion" ≠ VUndefined →
  obj_get o "apiVersion" ≠ VNull →
  (∀ l, obj_get o "apiVersion" ≠ VRef l) →
  ∃ c, Index.constructor h o env = Normal c
       ∧ Index.currency (Index.config c) = VStr "CZK"
       ∧ Index.language (Index.config c) = VStr "cs"
       ∧ Index.country (Index.config c) = VStr "CZ".
Proof.
  intros Hu Hn Hr. unfold Index.constructor.
  destruct (obj_get o "apiVersion") as [| |b|n|s|l|src]; try done;
    try (eexists; by repeat split).
  by destruct (Hr l).
Qed.

Lemma Index_locale_options_ignored_witness :
  ∃ c, Index.constructor ∅ {[ "apiVersion" := VStr "2.0"; "currency" := VStr "EUR";
                               "language" := VStr "en"; "country" := VStr "SK" ]} ∅
       = Normal c
       ∧ Index.currency (Index.config c) = VStr "CZK"
       ∧ Index.language (Index.config c) = VStr "cs"
       ∧ Index.country (Index.config c) = VStr "CZ".
Proof.
  apply (Index_locale_options_ignored ∅
           {[ "apiVersion" := VStr "2.0"; "currency" := VStr "EUR";
              "language" := VStr "en"; "country" := VStr "SK" ]} ∅);
    [discriminate|discriminate|intros l; discriminate].
Defined.

(** X22: the older client has no default base URL: built with neither a
    truthy [gateUrl] option nor a [GATEWAY_URL] variable, its [gateUrl] is
    the text undefined, [/v] and the resolved version, and so is the start
    of every request URL. *)
Theorem Index_gateUrl_without_base (h : heap) (o : obj) (env : gmap string string)
    (c : Index.client) (fetch : request → promise response)
    (path : string) (data : option obj) (method : option string) :
  truthy (obj_get o "gateUrl") = false →
  env !! "GATEWAY_URL" = None →
  Index.constructor h o env = Normal c →
  Index.gateUrl (Index.config c)
  = "undefined/v" +:+ ToString (Index.apiVersion (Index.config c))
  ∧ req_url (sent (Index._makeAPICall c fetch path data method))
    = "undefined/v" +:+ ToString (Index.apiVersion (Index.config c)) +:+ "/" +:+ path.
Proof.
  intros Hg He. unfold Index.constructor.
  destruct (Index.get_prop h _ "currency") as [cur|e]; simpl; [|done].
  destruct (Index.get_prop h _ "language") as [lang|e]; simpl; [|done].
  destruct (Index.get_prop h _ "country") as [ctry|e]; simpl; [|done].
  intros [= <-].
  assert (or_js (obj_get o "gateUrl") (env_get env "GATEWAY_URL") = VUndefined) as Hbase
    by (unfold or_js, env_get; by rewrite Hg, He).
  unfold Index._makeAPICall.
  cbn [Index.config Index.gateUrl Index.apiVersion sent req_url].
  rewrite Hbase. split; reflexivity.
Qed.

Lemma Index_gateUrl_without_base_witness :
  ∃ c, Index.constructor ∅ {[ "apiVersion" := VStr "1.0" ]} ∅ = Normal c
       ∧ Index.gateUrl (Index.config c)
         = "undefined/v" +:+ ToString (Index.apiVersion (Index.config c))
       ∧ req_url (sent (Index._makeAPICall c (answering (fetched 200 None "" None))
                          "methods" None None))
         = "undefined/v" +:+ ToString (Index.apiVersion (Index.config c)) +:+ "/" +:+ "methods".
Proof.
  destruct (Index.constructor ∅ {[ "apiVersion" := VStr "1.0" ]} ∅) as [c|e] eqn:Hc;
    [|discriminate Hc].
  exists c. split; [reflexivity|].
  apply (Index_gateUrl_without_base ∅ {[ "apiVersion" := VStr "1.0" ]} ∅ c
           (answering (fetched 200 None "" None)) "methods" None None);
    [reflexivity|reflexivity|exact Hc].
Defined.

(** X23: in the older client, a response outside 200-299 makes the call
    reject with an [APIError] whose message is the body text, whatever the
    [Content-Type], also when there is none. *)
Theorem Index_error_status_any_content_type (this : Index.client)
    (fetch : request → promise response)
    (path : string) (data : option obj) (method : option string)
    (res : response) (body : string) :
  fetch (sent (Index._makeAPICall this fetch path data method)) = Resolved res →
  res_ok res = false →
  res_text res = Normal (Resolved body) →
  ∃ e, returned (Index._makeAPICall this fetch path data method) = Rejected e
       ∧ err_class e = APIErrorC
       ∧ err_get e "name" = VStr "APIError"
       ∧ err_get e "message" = VStr body.
Proof.
  intros Hf Hok Ht. unfold Index._makeAPICall in *; simpl in *. rewrite Hf. simpl.
  rewrite (Index_not_ok_rejects_APIError res body Hok Ht).
  eexists. by repeat split.
Qed.

(** X24: the older client sends every truthy value as it is, not as a
    string, and every falsy one as the empty string. *)
Theorem Index_fields_not_converted (data : obj) (k : string) (v : value) :
  data !! k = Some v →
  (k, if truthy v then v else VStr "") ∈ Index.form_data data.
Proof.
  intros Hk. unfold Index.form_data. apply list_elem_of_further.
  apply list_elem_of_fmap. exists (k, v). split; [done|].
  by apply elem_of_map_to_list.
Qed.

Lemma Index_fields_not_converted_witness :
  ("prepareOnly", if truthy (VBool true) then VBool true else VStr "")
    ∈ Index.form_data {[ "prepareOnly" := VBool true; "price" := VNum 0 ]}.
Proof.
  apply (Index_fields_not_converted {[ "prepareOnly" := VBool true; "price" := VNum 0 ]}
           "prepareOnly" (VBool true)).
  reflexivity.
Defined.

(** X25: whatever the transport answers, the older client resolves with
    parsed JSON only: never with a field mapping, never with the raw
    text, so that a URL-encoded answer cannot resolve. *)
Theorem Index_resolves_json_only (this : Index.client) (fetch : request → promise response)
    (path : string) (data : option obj) (method : option string) :
  match returned (Index._makeAPICall this fetch path data method) with
  | Resolved (RJson _) | Rejected _ => True
  | Resolved _ => False
  end.
Proof.
  unfold Index._makeAPICall; simpl.
  destruct (fetch _) as [res|e]; simpl; [|done].
  unfold Index.on_response.
  destruct (res_ok res); simpl.
  - destruct (res_json res) as [[j|e]|e]; simpl; try done.
    unfold Index.on_json.
    destruct (json_get j "error") as [[err|]|e]; simpl; try done.
    by destruct (json_truthy err).
  - by destruct (res_text res) as [[body|e]|e].
Qed.

Lemma Index_error_status_any_content_type_witness :
  ∃ c e, Index.constructor ∅ {[ "apiVersion" := VStr "1.0" ]} ∅ = Normal c
         ∧ returned (Index._makeAPICall c (answering (fetched 503 None "Service Unavailable" None))
                       "methods" None None)
           = Rejected e
         ∧ err_class e = APIErrorC
         ∧ err_get e "name" = VStr "APIError"
         ∧ err_get e "message" = VStr "Service Unavailable".
Proof.
  destruct (Index.constructor ∅ {[ "apiVersion" := VStr "1.0" ]} ∅) as [c|e] eqn:Hc;
    [|discriminate Hc].
  exists c.
  destruct (Index_error_status_any_content_type c
              (answering (fetched 503 None "Service Unavailable" None))
              "methods" None None
              (fetched 503 None "Service Unavailable" None) "Service Unavailable"
              eq_refl eq_refl eq_refl) as [e He].
  exists e. split; [reflexivity|exact He].
Defined.

(** X26: a response outside 200-299 never makes a call resolve, in the
    current client and in the older one: whatever its headers and whatever
    reading its body gives, the call rejects. *)
Theorem error_status_never_resolves (current : Part000.client) (older : Index.client)
    (res : response) (path : string) (data : option obj) (method : option string) :
  res_ok res = false →
  (∃ e, returned (Part000._makeAPICall current (answering res) path data method) = Rejected e)
  ∧ (∃ e, returned (Index._makeAPICall older (answering res) path data method) = Rejected e).
Proof.
  intros Hok. split.
  - rewrite returned_answering. unfold Part000.on_response. rewrite Hok. simpl.
    destruct (res_content_type res) as [ct|]; [|by eexists].
    destruct (res_text res) as [[body|e]|e]; simpl; by eexists.
  - unfold Index._makeAPICall, answering; simpl.
    unfold Index.on_response. rewrite Hok. simpl.
    destruct (res_text res) as [[body|e]|e]; simpl; by eexists.
Qed.

Lemma error_status_never_resolves_witness :
  ∃ older,
    Index.constructor ∅ {[ "apiVersion" := VStr "1.0" ]} ∅ = Normal older
    ∧ (∃ e, returned (Part000._makeAPICall bare_client
                        (answering (fetched 302 (Some "text/html") "code=0&message=OK" None))
                        "status" None None) = Rejected e)
    ∧ (∃ e, returned (Index._makeAPICall older
                        (answering (fetched 302 (Some "text/html") "code=0&message=OK" None))
                        "status" None None) = Rejected e).
Proof.
  destruct (Index.constructor ∅ {[ "apiVersion" := VStr "1.0" ]} ∅) as [older|e] eqn:Hc;
    [|discriminate Hc].
  exists older. split; [reflexivity|].
  apply (error_status_never_resolves bare_client older
           (fetched 302 (Some "text/html") "code=0&message=OK" None) "status" None None).
  reflexivity.
Defined.
